(** * Banco-de-Dados: client and budget records

    A shallow embedding of the persistence and validation layer of
    [main.py] and [budget.py]: the [DataValidator] checks, the identifier
    generators, the live phone formatter, the search filter and the SQL
    statements the dialogs run against the [clients] and [budgets] tables.

    Conventions of the embedding.
    - A Python [str] is a [string]; characters are 8-bit and the text is
      taken to be ASCII, so [str.lower], [str.strip] and the regular
      expression classes act on ASCII letters, digits and blanks.
    - A table is the list of its rows in storage (rowid) order.  The
      [id INTEGER PRIMARY KEY AUTOINCREMENT] column is never selected nor
      written by the application and is left out of the row records.
    - A dialog callback becomes a function from the widget contents and
      the database to the new database and the message box it shows.
    - [secrets.randbelow] and [datetime.now] are inputs of the callbacks
      that use them. *)

From Stdlib Require Import List String Ascii Bool Arith NArith Lia.
Import ListNotations.

Local Open Scope string_scope.
Local Open Scope bool_scope.
Local Open Scope nat_scope.

(** ** Python string primitives *)

Module Py.

(** [len(s)] *)
Definition len (s : string) : nat := String.length s.

(** [s[i:j]] for [0 <= i <= j]: the slice is cut short at the end of [s]. *)
Definition slice (s : string) (i j : nat) : string := substring i (j - i) s.

(** [c.isdigit()] on an ASCII character, and the class [\d]. *)
Definition is_digit (c : ascii) : bool :=
  let n := nat_of_ascii c in (48 <=? n) && (n <=? 57).

(** [re.sub(r'\D', '', s)]: every character that is not a digit is removed. *)
Fixpoint sub_non_digits (s : string) : string :=
  match s with
  | EmptyString => EmptyString
  | String c s' =>
      if is_digit c then String c (sub_non_digits s') else sub_non_digits s'
  end.

(** Every character of [s] is a digit. *)
Fixpoint all_digits (s : string) : bool :=
  match s with
  | EmptyString => true
  | String c s' => is_digit c && all_digits s'
  end.

Definition is_upper (c : ascii) : bool :=
  let n := nat_of_ascii c in (65 <=? n) && (n <=? 90).

Definition lower_char (c : ascii) : ascii :=
  if is_upper c then ascii_of_nat (nat_of_ascii c + 32) else c.

(** [s.lower()] *)
Fixpoint lower (s : string) : string :=
  match s with
  | EmptyString => EmptyString
  | String c s' => String (lower_char c) (lower s')
  end.

(** [s.startswith(p)], the comparison [in] repeats at every position. *)
Fixpoint startswith (p s : string) : bool :=
  match p, s with
  | EmptyString, _ => true
  | String _ _, EmptyString => false
  | String a p', String b s' => Ascii.eqb a b && startswith p' s'
  end.

(** [sub in s] *)
Fixpoint contains (sub s : string) : bool :=
  startswith sub s ||
  match s with
  | EmptyString => false
  | String _ s' => contains sub s'
  end.

(** [c.isspace()] on an ASCII character: tab, line feed, vertical tab,
    form feed, carriage return, the four separators 28-31 and space. *)
Definition is_space (c : ascii) : bool :=
  let n := nat_of_ascii c in
  ((9 <=? n) && (n <=? 13)) || ((28 <=? n) && (n <=? 32)).

Fixpoint lstrip (s : string) : string :=
  match s with
  | EmptyString => EmptyString
  | String c s' => if is_space c then lstrip s' else s
  end.

Fixpoint rstrip (s : string) : string :=
  match s with
  | EmptyString => EmptyString
  | String c s' =>
      match rstrip s' with
      | EmptyString => if is_space c then EmptyString else String c EmptyString
      | r => String c r
      end
  end.

(** [s.strip()] *)
Definition strip (s : string) : string := rstrip (lstrip s).

(** [str(n)] for a non-negative integer: its decimal digits, most
    significant first, ["0"] for zero. *)
Definition digit_char (d : N) : ascii := ascii_of_N (48 + d).

Fixpoint str_of_int_aux (fuel : nat) (n : N) (acc : string) : string :=
  let acc' := String (digit_char (n mod 10)) acc in
  match fuel with
  | O => acc'
  | S fuel' =>
      if (n / 10 =? 0)%N then acc' else str_of_int_aux fuel' (n / 10)%N acc'
  end.

Definition str_of_int (n : N) : string :=
  str_of_int_aux (N.to_nat (N.size n)) n EmptyString.

(** [int(s)] on a string of decimal digits. *)
Definition digit_val (c : ascii) : N := (N_of_ascii c - 48)%N.

Fixpoint int_of_str_aux (acc : N) (s : string) : N :=
  match s with
  | EmptyString => acc
  | String c s' => int_of_str_aux (10 * acc + digit_val c)%N s'
  end.

Definition int_of_str (s : string) : N := int_of_str_aux 0%N s.

End Py.

(** ** The live phone formatter ([DatabaseApp.format_phone_entry]) *)

(** The rendering of the digits [phone], as the four [if]s of the source
    build it. *)
Definition render_phone (phone : string) : string :=
  let formatted_phone := "" in
  let formatted_phone :=
    if 0 <? Py.len phone
    then formatted_phone ++ "(" ++ Py.slice phone 0 2 else formatted_phone in
  let formatted_phone :=
    if 2 <? Py.len phone
    then formatted_phone ++ ") " ++ Py.slice phone 2 3 else formatted_phone in
  let formatted_phone :=
    if 3 <? Py.len phone
    then formatted_phone ++ " " ++ Py.slice phone 3 7 else formatted_phone in
  let formatted_phone :=
    if 7 <? Py.len phone
    then formatted_phone ++ "-" ++ Py.slice phone 7 11 else formatted_phone in
  formatted_phone.

(** [format_phone_entry] maps the text of the entry to the text it leaves
    in the entry ([entry.delete(0, END); entry.insert(0, formatted_phone)]). *)
Definition format_phone_entry (entry : string) : string :=
  let phone := Py.sub_non_digits entry in
  render_phone phone.

(** ** Regular expressions ([re]), the fragment [EMAIL_REGEX] is written in *)

Module Re.

(** The items of a pattern: the anchors [^] and [$], a literal character
    and a character class repeated one or more times ([[...]+]). *)
Inductive item : Type :=
| Bol
| Eol
| Lit (c : ascii)
| Plus (cls : ascii -> bool).

Definition pattern : Type := list item.

(** Without [re.MULTILINE], [$] matches at the end of the string and
    just before a line feed that ends the string. *)
Definition at_eol (s : string) : bool :=
  match s with
  | EmptyString => true
  | String c EmptyString => Ascii.eqb c "010"%char
  | _ => false
  end.

(** [cls+] followed by the rest of the pattern [k]: greedy, giving
    characters back one at a time when the rest fails. *)
Fixpoint match_plus (cls : ascii -> bool) (k : nat -> string -> bool)
         (pos : nat) (s : string) : bool :=
  match s with
  | EmptyString => false
  | String c s' =>
      cls c && (match_plus cls k (S pos) s' || k (S pos) s')
  end.

(** The backtracking matcher, started at offset [pos] of the subject. *)
Fixpoint match_here (p : pattern) : nat -> string -> bool :=
  match p with
  | [] => fun _ _ => true
  | Bol :: p' => fun pos s => (pos =? 0) && match_here p' pos s
  | Eol :: p' => fun pos s => at_eol s && match_here p' pos s
  | Lit c :: p' => fun pos s =>
      match s with
      | EmptyString => false
      | String a s' => Ascii.eqb a c && match_here p' (S pos) s'
      end
  | Plus cls :: p' => match_plus cls (match_here p')
  end.

(** [bool(pattern.match(s))]: a match anchored at offset 0. *)
Definition match_ (p : pattern) (s : string) : bool := match_here p 0 s.

(** Every character of [s] is in the class [cls]. *)
Fixpoint all_in (cls : ascii -> bool) (s : string) : bool :=
  match s with
  | EmptyString => true
  | String c s' => cls c && all_in cls s'
  end.

End Re.

(** ** [DataValidator] (the same text in [main.py] and in [budget.py]) *)

Module DataValidator.

Definition is_lower_az (c : ascii) : bool :=
  let n := nat_of_ascii c in (97 <=? n) && (n <=? 122).

(** [a-zA-Z0-9] *)
Definition alnum (c : ascii) : bool :=
  is_lower_az c || Py.is_upper c || Py.is_digit c.

(** [[a-zA-Z0-9_.+-]] *)
Definition local_class (c : ascii) : bool :=
  alnum c || Ascii.eqb c "_" || Ascii.eqb c "." || Ascii.eqb c "+"
  || Ascii.eqb c "-".

(** [[a-zA-Z0-9-]] *)
Definition domain_class (c : ascii) : bool :=
  alnum c || Ascii.eqb c "-".

(** [[a-zA-Z0-9-.]] *)
Definition tld_class (c : ascii) : bool :=
  alnum c || Ascii.eqb c "-" || Ascii.eqb c ".".

(** [r'^[a-zA-Z0-9_.+-]+@[a-zA-Z0-9-]+\.[a-zA-Z0-9-.]+$'] *)
Definition EMAIL_REGEX : Re.pattern :=
  [Re.Bol; Re.Plus local_class; Re.Lit "@"; Re.Plus domain_class;
   Re.Lit "."; Re.Plus tld_class; Re.Eol].

Definition validate_email (email : string) : bool :=
  Re.match_ EMAIL_REGEX email.

Definition sanitize_input (data : string) : string := Py.strip data.

Definition validate_input (data : string) (max_length : nat) : bool :=
  negb (String.eqb data "") && (Py.len data <=? max_length).

End DataValidator.

(** The shape the pattern describes: a non-empty local part, [@], a
    non-empty domain label, a dot and a non-empty rest, each over its class. *)
Definition email_shape (s : string) : Prop :=
  exists l d t : string,
    s = l ++ "@" ++ d ++ "." ++ t /\
    l <> "" /\ Re.all_in DataValidator.local_class l = true /\
    d <> "" /\ Re.all_in DataValidator.domain_class d = true /\
    t <> "" /\ Re.all_in DataValidator.tld_class t = true.

(** ** Identifier generators *)

(** [secrets.randbelow(n)] returns one of the integers [0 .. n-1], each
    with the same probability: the list of its equally likely outcomes. *)
Definition randbelow_outcomes (n : N) : list N :=
  map N.of_nat (seq 0 (N.to_nat n)).

(** [f"AUT-{secrets.randbelow(9000) + 1000}"], [rnd] the integer drawn. *)
Definition generate_client_id (rnd : N) : string :=
  "AUT-" ++ Py.str_of_int (rnd + 1000).

(** [f"ART-{secrets.randbelow(9000) + 1000}"]: [DatabaseApp.generate_budget_id]
    of [main.py] and [BudgetManager.generate_budget_id] of [budget.py]. *)
Definition generate_budget_id (rnd : N) : string :=
  "ART-" ++ Py.str_of_int (rnd + 1000).

(** The identifiers a call can return, one per outcome of the draw. *)
Definition client_id_outcomes : list string :=
  map generate_client_id (randbelow_outcomes 9000).

Definition budget_id_outcomes : list string :=
  map generate_budget_id (randbelow_outcomes 9000).

(** ["AUT-"] or ["ART-"] followed by exactly four decimal digits. *)
Definition four_digit_id (prefix id : string) : Prop :=
  exists d : string,
    id = prefix ++ d /\ Py.len d = 4 /\ Py.all_digits d = true /\
    (1000 <= Py.int_of_str d <= 9999)%N.

(** ** The storage layer: the SQL statements the dialogs execute *)

(** [messagebox.showwarning], [showinfo] and [showerror]: title and text. *)
Inductive messagebox : Type :=
| showwarning (title message : string)
| showinfo (title message : string)
| showerror (title message : string).

Module Sql.

(** [sqlite3.OperationalError], raised when a statement is prepared
    against a table that lacks a column it names.  Other storage
    failures (a locked or unreadable file) are not modelled. *)
Inductive error : Type :=
| OperationalError (msg : string).

(** [str(e)] *)
Definition str (e : error) : string :=
  match e with OperationalError msg => msg end.

Inductive result (A : Type) : Type :=
| Ok (a : A)
| Err (e : error).

Arguments Ok {A} a.
Arguments Err {A} e.

Section Table.

Variable row : Type.

(** A column of a table: its name, the value a row holds in it
    ([None] is [NULL]) and how [SET name = ?] writes it. *)
Record column : Type := {
  col_name : string;
  col_get : row -> option string;
  col_set : string -> row -> row
}.

(** The columns of the [CREATE TABLE] statement. *)
Variable columns : list column.

Definition find_column (c : string) : option column :=
  find (fun k => String.eqb (col_name k) c) columns.

(** [col = ?]: never true on [NULL]. *)
Definition col_eq (k : column) (v : string) (r : row) : bool :=
  match col_get k r with
  | Some x => String.eqb x v
  | None => false
  end.

Fixpoint set_clause (sets : list (string * string)) : result (row -> row) :=
  match sets with
  | [] => Ok (fun r => r)
  | (c, v) :: sets' =>
      match find_column c with
      | None => Err (OperationalError ("no such column: " ++ c))
      | Some k =>
          match set_clause sets' with
          | Err e => Err e
          | Ok f => Ok (fun r => f (col_set k v r))
          end
      end
  end.

(** [UPDATE t SET c1=?, ... WHERE wcol=?] *)
Definition update (sets : list (string * string)) (wcol wval : string)
           (rows : list row) : result (list row) :=
  match set_clause sets with
  | Err e => Err e
  | Ok f =>
      match find_column wcol with
      | None => Err (OperationalError ("no such column: " ++ wcol))
      | Some w => Ok (map (fun r => if col_eq w wval r then f r else r) rows)
      end
  end.

(** [DELETE FROM t WHERE wcol=?] *)
Definition delete (wcol wval : string) (rows : list row)
  : result (list row) :=
  match find_column wcol with
  | None => Err (OperationalError ("no such column: " ++ wcol))
  | Some w => Ok (filter (fun r => negb (col_eq w wval r)) rows)
  end.

Fixpoint check_columns (msg : string) (cols : list string) : result unit :=
  match cols with
  | [] => Ok tt
  | c :: cols' =>
      match find_column c with
      | None => Err (OperationalError (msg ++ c))
      | Some _ => check_columns msg cols'
      end
  end.

(** [INSERT INTO t (cols) VALUES (...)], [r] the row the values make:
    the new row gets the highest rowid and is last in storage order. *)
Definition insert (table : string) (cols : list string) (r : row)
           (rows : list row) : result (list row) :=
  match check_columns ("table " ++ table ++ " has no column named ") cols with
  | Err e => Err e
  | Ok _ => Ok (rows ++ [r])%list
  end.

(** [SELECT cols FROM t], followed by [cursor.fetchall()]. *)
Definition select (cols : list string) (rows : list row)
  : result (list row) :=
  match check_columns "no such column: " cols with
  | Err e => Err e
  | Ok _ => Ok rows
  end.

(** The scalar subquery [(SELECT sel FROM t WHERE wcol=?)]: the value
    of the first row that matches, [NULL] when none does. *)
Definition scalar_subquery (sel wcol wval : string) (rows : list row)
  : result (option string) :=
  match find_column sel, find_column wcol with
  | Some k, Some w =>
      Ok (match find (col_eq w wval) rows with
          | Some r => col_get k r
          | None => None
          end)
  | None, _ => Err (OperationalError ("no such column: " ++ sel))
  | _, None => Err (OperationalError ("no such column: " ++ wcol))
  end.

End Table.

Arguments col_name {row} _.
Arguments col_get {row} _ _.
Arguments col_set {row} _ _ _.
Arguments find_column {row} _ _.
Arguments col_eq {row} _ _ _.
Arguments set_clause {row} _ _.
Arguments update {row} _ _ _ _ _.
Arguments delete {row} _ _ _ _.
Arguments check_columns {row} _ _ _.
Arguments insert {row} _ _ _ _ _.
Arguments select {row} _ _ _.
Arguments scalar_subquery {row} _ _ _ _ _.

End Sql.

(** The [clients] table, created by the same statement in both files:
    [client_id], [name], [email], [phone], [observation], [date_added],
    all [TEXT].  Every row the application inserts binds a Python [str]
    to each of the six columns, so a row it wrote holds six strings.  The
    rows as a [SELECT] reads them back, [NULL] included, are
    [ClientsTable.row] below. *)
Module Clients.

Record row : Type := {
  client_id : string;
  name : string;
  email : string;
  phone : string;
  observation : string;
  date_added : string
}.

Definition columns : list (Sql.column row) :=
  [ {| Sql.col_name := "client_id";
       Sql.col_get := fun r => Some (client_id r);
       Sql.col_set := fun v r =>
         Build_row v (name r) (email r) (phone r) (observation r) (date_added r) |};
    {| Sql.col_name := "name";
       Sql.col_get := fun r => Some (name r);
       Sql.col_set := fun v r =>
         Build_row (client_id r) v (email r) (phone r) (observation r) (date_added r) |};
    {| Sql.col_name := "email";
       Sql.col_get := fun r => Some (email r);
       Sql.col_set := fun v r =>
         Build_row (client_id r) (name r) v (phone r) (observation r) (date_added r) |};
    {| Sql.col_name := "phone";
       Sql.col_get := fun r => Some (phone r);
       Sql.col_set := fun v r =>
         Build_row (client_id r) (name r) (email r) v (observation r) (date_added r) |};
    {| Sql.col_name := "observation";
       Sql.col_get := fun r => Some (observation r);
       Sql.col_set := fun v r =>
         Build_row (client_id r) (name r) (email r) (phone r) v (date_added r) |};
    {| Sql.col_name := "date_added";
       Sql.col_get := fun r => Some (date_added r);
       Sql.col_set := fun v r =>
         Build_row (client_id r) (name r) (email r) (phone r) (observation r) v |} ].

(** The six values of a fetched row, [row[0]] to [row[5]]. *)
Definition values (r : row) : list string :=
  [client_id r; name r; email r; phone r; observation r; date_added r].

End Clients.

(** A row of the [clients] table as the file can hold it and as
    [cursor.fetchall()] hands it over: each of the six [TEXT] columns is a
    text or [NULL] ([None]).  [init_database] adds [client_id] and
    [date_added] to a table of an older version, and the rows that were
    there keep [NULL] in them. *)
Module ClientsTable.

Record row : Type := {
  client_id : option string;
  name : option string;
  email : option string;
  phone : option string;
  observation : option string;
  date_added : option string
}.

(** The six values of a fetched row, [row[0]] to [row[5]]. *)
Definition values (r : row) : list (option string) :=
  [client_id r; name r; email r; phone r; observation r; date_added r].

(** A row the application wrote: six texts. *)
Definition written (r : Clients.row) : row :=
  {| client_id := Some (Clients.client_id r);
     name := Some (Clients.name r);
     email := Some (Clients.email r);
     phone := Some (Clients.phone r);
     observation := Some (Clients.observation r);
     date_added := Some (Clients.date_added r) |}.

End ClientsTable.

(** What pressing a button of a first-step dialog leads to: a message
    box and nothing else, or the next dialog with the values entered. *)
Inductive step (A : Type) : Type :=
| Stop (m : messagebox)
| Continue (a : A).

Arguments Stop {A} m.
Arguments Continue {A} a.

(** ** [main.py] *)

Module Main.

(** The [budgets] table of [DatabaseManager.init_database] in [main.py]. *)
Module Budgets.

Record row : Type := {
  budget_id : string;
  name : string;
  email : string;
  date : string;
  type : string;
  completion : string;
  deadline : string;
  service : string
}.

Definition columns : list (Sql.column row) :=
  [ {| Sql.col_name := "budget_id";
       Sql.col_get := fun r => Some (budget_id r);
       Sql.col_set := fun v r =>
         Build_row v (name r) (email r) (date r) (type r) (completion r)
                   (deadline r) (service r) |};
    {| Sql.col_name := "name";
       Sql.col_get := fun r => Some (name r);
       Sql.col_set := fun v r =>
         Build_row (budget_id r) v (email r) (date r) (type r) (completion r)
                   (deadline r) (service r) |};
    {| Sql.col_name := "email";
       Sql.col_get := fun r => Some (email r);
       Sql.col_set := fun v r =>
         Build_row (budget_id r) (name r) v (date r) (type r) (completion r)
                   (deadline r) (service r) |};
    {| Sql.col_name := "date";
       Sql.col_get := fun r => Some (date r);
       Sql.col_set := fun v r =>
         Build_row (budget_id r) (name r) (email r) v (type r) (completion r)
                   (deadline r) (service r) |};
    {| Sql.col_name := "type";
       Sql.col_get := fun r => Some (type r);
       Sql.col_set := fun v r =>
         Build_row (budget_id r) (name r) (email r) (date r) v (completion r)
                   (deadline r) (service r) |};
    {| Sql.col_name := "completion";
       Sql.col_get := fun r => Some (completion r);
       Sql.col_set := fun v r =>
         Build_row (budget_id r) (name r) (email r) (date r) (type r) v
                   (deadline r) (service r) |};
    {| Sql.col_name := "deadline";
       Sql.col_get := fun r => Some (deadline r);
       Sql.col_set := fun v r =>
         Build_row (budget_id r) (name r) (email r) (date r) (type r)
                   (completion r) v (service r) |};
    {| Sql.col_name := "service";
       Sql.col_get := fun r => Some (service r);
       Sql.col_set := fun v r =>
         Build_row (budget_id r) (name r) (email r) (date r) (type r)
                   (completion r) (deadline r) v |} ].

End Budgets.

(** [database.db] after [init_database]: the two tables. *)
Record database : Type := {
  clients : list Clients.row;
  budgets : list Budgets.row
}.

(** [load_data]: the rows of the client tree after the reload. *)
Definition load_data (db : database) : list Clients.row * option messagebox :=
  match Sql.select Clients.columns
          ["client_id"; "name"; "email"; "phone"; "observation"; "date_added"]
          (clients db) with
  | Sql.Ok rows =>
      (fold_left (fun tree row => (tree ++ [row])%list) rows [], None)
  | Sql.Err e =>
      ([], Some (showerror "Erro"
                   ("Erro ao carregar dados de clientes: " ++ Sql.str e)))
  end.

(** [load_budget_data] *)
Definition load_budget_data (db : database)
  : list Budgets.row * option messagebox :=
  match Sql.select Budgets.columns
          ["budget_id"; "name"; "email"; "date"; "type"; "completion";
           "deadline"; "service"]
          (budgets db) with
  | Sql.Ok rows =>
      (fold_left (fun tree row => (tree ++ [row])%list) rows [], None)
  | Sql.Err e =>
      ([], Some (showerror "Erro"
                   ("Erro ao carregar dados de orçamento: " ++ Sql.str e)))
  end.

(** [search_term in row[i].lower()]: on [None] the call of [lower]
    raises [AttributeError], here no result. *)
Definition in_lower (search_term : string) (field : option string)
  : option bool :=
  match field with
  | None => None
  | Some text => Some (Py.contains search_term (Py.lower text))
  end.

(** [a or b]: [b] is evaluated only when [a] is false, and an exception
    raised by [a] goes through. *)
Definition py_or (a b : option bool) : option bool :=
  match a with
  | None => None
  | Some true => Some true
  | Some false => b
  end.

(** The test of the loop of [filter_data] on one fetched row. *)
Definition row_matches (search_term : string) (row : ClientsTable.row)
  : option bool :=
  py_or (py_or (py_or (py_or (py_or
    (in_lower search_term (ClientsTable.client_id row))
    (in_lower search_term (ClientsTable.name row)))
    (in_lower search_term (ClientsTable.email row)))
    (in_lower search_term (ClientsTable.phone row)))
    (in_lower search_term (ClientsTable.observation row)))
    (in_lower search_term (ClientsTable.date_added row)).

(** The loop of [filter_data] over the fetched rows: a row that passes
    the test is inserted at the end of the tree; when the test raises, the
    [except] shows the error and the tree stays as the loop left it. *)
Fixpoint filter_loop (search_term : string) (rows : list ClientsTable.row)
         (tree : list ClientsTable.row)
  : list ClientsTable.row * option messagebox :=
  match rows with
  | [] => (tree, None)
  | row :: rows' =>
      match row_matches search_term row with
      | Some true => filter_loop search_term rows' (tree ++ [row])%list
      | Some false => filter_loop search_term rows' tree
      | None =>
          (tree,
           Some (showerror "Erro"
                   ("Erro ao filtrar dados: "
                    ++ "'NoneType' object has no attribute 'lower'")))
      end
  end.

(** [filter_data]: [clients] is the table as stored, which the [SELECT]
    fetches whole; the tree is emptied before the loop. *)
Definition filter_data (search_entry : string) (clients : list ClientsTable.row)
  : list ClientsTable.row * option messagebox :=
  let search_term := Py.lower search_entry in
  filter_loop search_term clients [].

Module open_add_client_dialog.

Definition next_step (name email phone : string)
  : step (string * string * string) :=
  if String.eqb name "Digite o nome" || String.eqb name "" then
    Stop (showwarning "Aviso" "O campo nome é obrigatório!")
  else if negb (String.eqb email "Digite o email")
          && negb (DataValidator.validate_email email) then
    Stop (showwarning "Aviso" "Email inválido!")
  else
    Continue (name, email, phone).

End open_add_client_dialog.

Module open_add_client_observation_dialog.

Definition save_client (name email phone : string)
           (observation_text : string) (rnd : N) (today : string)
           (db : database) : database * messagebox :=
  let observation := Py.strip observation_text in
  let client_id := generate_client_id rnd in
  let date_added := today in
  match Sql.insert Clients.columns "clients"
          ["client_id"; "name"; "email"; "phone"; "observation"; "date_added"]
          (Clients.Build_row client_id name email phone observation date_added)
          (clients db) with
  | Sql.Ok rows =>
      ({| clients := rows; budgets := budgets db |},
       showinfo "Sucesso" "Cliente adicionado com sucesso!")
  | Sql.Err e =>
      (db, showerror "Erro" ("Erro ao salvar cliente: " ++ Sql.str e))
  end.

End open_add_client_observation_dialog.

(** The two steps of adding a client, one after the other: the second
    dialog opens only when the first let the input through. *)
Definition add_client (name email phone observation_text : string)
           (rnd : N) (today : string) (db : database)
  : database * messagebox :=
  match open_add_client_dialog.next_step name email phone with
  | Stop m => (db, m)
  | Continue (name', email', phone') =>
      open_add_client_observation_dialog.save_client
        name' email' phone' observation_text rnd today db
  end.

Module open_edit_client_dialog.

Definition next_step (client_id name email phone : string)
  : step (string * string * string * string) :=
  if String.eqb name "Digite o nome" || String.eqb name "" then
    Stop (showwarning "Aviso" "O campo nome é obrigatório!")
  else if negb (String.eqb email "Digite o email")
          && negb (DataValidator.validate_email email) then
    Stop (showwarning "Aviso" "Email inválido!")
  else
    Continue (client_id, name, email, phone).

End open_edit_client_dialog.

Module open_edit_client_observation_dialog.

Definition save_client (client_id name email phone : string)
           (observation_text : string) (db : database)
  : database * messagebox :=
  let observation := Py.strip observation_text in
  match Sql.update Clients.columns
          [("name", name); ("email", email); ("phone", phone);
           ("observation", observation)]
          "client_id" client_id (clients db) with
  | Sql.Ok rows =>
      ({| clients := rows; budgets := budgets db |},
       showinfo "Sucesso" "Cliente atualizado com sucesso!")
  | Sql.Err e =>
      (db, showerror "Erro" ("Erro ao atualizar cliente: " ++ Sql.str e))
  end.

End open_edit_client_observation_dialog.

(** [delete_client_record]: [selected_item] is the selected row of the
    tree, if any, and [confirm] the answer to the yes/no question. *)
Definition delete_client_record (selected_item : option Clients.row)
           (confirm : bool) (db : database) : database * option messagebox :=
  match selected_item with
  | None =>
      (db, Some (showwarning "Aviso" "Selecione um cliente para excluir."))
  | Some item =>
      let client_id := Clients.client_id item in
      if confirm then
        match Sql.delete Clients.columns "client_id" client_id (clients db) with
        | Sql.Ok rows =>
            ({| clients := rows; budgets := budgets db |},
             Some (showinfo "Sucesso" "Cliente excluído com sucesso!"))
        | Sql.Err e =>
            (db, Some (showerror "Erro"
                         ("Erro ao excluir cliente: " ++ Sql.str e)))
        end
      else (db, None)
  end.

Module open_add_budget_dialog.

Definition save_budget (name email budget_type completion deadline
                        service : string) (rnd : N) (today : string)
           (db : database) : database * messagebox :=
  if String.eqb name "Digite o nome" || String.eqb name "" then
    (db, showwarning "Aviso" "O campo nome é obrigatório!")
  else if negb (String.eqb email "Digite o email")
          && negb (DataValidator.validate_email email) then
    (db, showwarning "Aviso" "Email inválido!")
  else
    let budget_id := generate_budget_id rnd in
    let date_added := today in
    match Sql.insert Budgets.columns "budgets"
            ["budget_id"; "name"; "email"; "date"; "type"; "completion";
             "deadline"; "service"]
            (Budgets.Build_row budget_id name email date_added budget_type
                               completion deadline service)
            (budgets db) with
    | Sql.Ok rows =>
        ({| clients := clients db; budgets := rows |},
         showinfo "Sucesso" "Orçamento adicionado com sucesso!")
    | Sql.Err e =>
        (db, showerror "Erro" ("Erro ao salvar orçamento: " ++ Sql.str e))
    end.

End open_add_budget_dialog.

Module open_edit_budget_dialog.

Definition save_budget (budget_id name email budget_type completion
                        deadline service : string) (db : database)
  : database * messagebox :=
  if String.eqb name "Digite o nome" || String.eqb name "" then
    (db, showwarning "Aviso" "O campo nome é obrigatório!")
  else if negb (String.eqb email "Digite o email")
          && negb (DataValidator.validate_email email) then
    (db, showwarning "Aviso" "Email inválido!")
  else
    match Sql.update Budgets.columns
            [("name", name); ("email", email); ("type", budget_type);
             ("completion", completion); ("deadline", deadline);
             ("service", service)]
            "budget_id" budget_id (budgets db) with
    | Sql.Ok rows =>
        ({| clients := clients db; budgets := rows |},
         showinfo "Sucesso" "Orçamento atualizado com sucesso!")
    | Sql.Err e =>
        (db, showerror "Erro" ("Erro ao atualizar orçamento: " ++ Sql.str e))
    end.

End open_edit_budget_dialog.

Definition delete_budget_record (selected_item : option Budgets.row)
           (confirm : bool) (db : database) : database * option messagebox :=
  match selected_item with
  | None =>
      (db, Some (showwarning "Aviso" "Selecione um orçamento para excluir."))
  | Some item =>
      let budget_id := Budgets.budget_id item in
      if confirm then
        match Sql.delete Budgets.columns "budget_id" budget_id (budgets db) with
        | Sql.Ok rows =>
            ({| clients := clients db; budgets := rows |},
             Some (showinfo "Sucesso" "Orçamento excluído com sucesso!"))
        | Sql.Err e =>
            (db, Some (showerror "Erro"
                         ("Erro ao excluir orçamento: " ++ Sql.str e)))
        end
      else (db, None)
  end.

End Main.

(** ** [budget.py] *)

Module Budget.

(** The [budgets] table of [DatabaseManager.init_database] in
    [budget.py]: [budget_id], [client_id], [date], [type], [completion],
    [deadline], [service].  [client_id] is filled by a subquery and can
    be [NULL]. *)
Module Budgets.

Record row : Type := {
  budget_id : string;
  client_id : option string;
  date : string;
  type : string;
  completion : string;
  deadline : string;
  service : string
}.

Definition columns : list (Sql.column row) :=
  [ {| Sql.col_name := "budget_id";
       Sql.col_get := fun r => Some (budget_id r);
       Sql.col_set := fun v r =>
         Build_row v (client_id r) (date r) (type r) (completion r)
                   (deadline r) (service r) |};
    {| Sql.col_name := "client_id";
       Sql.col_get := fun r => client_id r;
       Sql.col_set := fun v r =>
         Build_row (budget_id r) (Some v) (date r) (type r) (completion r)
                   (deadline r) (service r) |};
    {| Sql.col_name := "date";
       Sql.col_get := fun r => Some (date r);
       Sql.col_set := fun v r =>
         Build_row (budget_id r) (client_id r) v (type r) (completion r)
                   (deadline r) (service r) |};
    {| Sql.col_name := "type";
       Sql.col_get := fun r => Some (type r);
       Sql.col_set := fun v r =>
         Build_row (budget_id r) (client_id r) (date r) v (completion r)
                   (deadline r) (service r) |};
    {| Sql.col_name := "completion";
       Sql.col_get := fun r => Some (completion r);
       Sql.col_set := fun v r =>
         Build_row (budget_id r) (client_id r) (date r) (type r) v
                   (deadline r) (service r) |};
    {| Sql.col_name := "deadline";
       Sql.col_get := fun r => Some (deadline r);
       Sql.col_set := fun v r =>
         Build_row (budget_id r) (client_id r) (date r) (type r)
                   (completion r) v (service r) |};
    {| Sql.col_name := "service";
       Sql.col_get := fun r => Some (service r);
       Sql.col_set := fun v r =>
         Build_row (budget_id r) (client_id r) (date r) (type r)
                   (completion r) (deadline r) v |} ].

End Budgets.

(** [database.db] after the [init_database] of [budget.py].  The
    [users] table is created and never used. *)
Record database : Type := {
  clients : list Clients.row;
  budgets : list Budgets.row
}.

(** [load_budget_data] *)
Definition load_budget_data (db : database)
  : list Budgets.row * option messagebox :=
  match Sql.select Budgets.columns
          ["budget_id"; "client_id"; "date"; "type"; "completion";
           "deadline"; "service"]
          (budgets db) with
  | Sql.Ok rows =>
      (fold_left (fun tree row => (tree ++ [row])%list) rows [], None)
  | Sql.Err e =>
      ([], Some (showerror "Erro"
                   ("Erro ao carregar dados de orçamento: " ++ Sql.str e)))
  end.

Module open_add_budget_dialog.

(** The single [INSERT] of [save_budget]: the second value is the
    subquery [(SELECT client_id FROM clients WHERE name=?)]. *)
Definition save_budget (client_name budget_type completion deadline
                        service : string) (rnd : N) (today : string)
           (db : database) : database * messagebox :=
  if String.eqb client_name "Digite o nome do cliente"
     || String.eqb client_name "" then
    (db, showwarning "Aviso" "O campo Nome do Cliente é obrigatório!")
  else
    let budget_id := generate_budget_id rnd in
    let date_added := today in
    match Sql.scalar_subquery Clients.columns "client_id" "name"
            client_name (clients db) with
    | Sql.Err e =>
        (db, showerror "Erro" ("Erro ao salvar orçamento: " ++ Sql.str e))
    | Sql.Ok client_ref =>
        match Sql.insert Budgets.columns "budgets"
                ["budget_id"; "client_id"; "date"; "type"; "completion";
                 "deadline"; "service"]
                (Budgets.Build_row budget_id client_ref date_added
                                   budget_type completion deadline service)
                (budgets db) with
        | Sql.Ok rows =>
            ({| clients := clients db; budgets := rows |},
             showinfo "Sucesso" "Orçamento adicionado com sucesso!")
        | Sql.Err e =>
            (db, showerror "Erro"
                   ("Erro ao salvar orçamento: " ++ Sql.str e))
        end
    end.

End open_add_budget_dialog.

Module open_edit_budget_dialog.

Definition save_budget (budget_id name email budget_type completion
                        deadline service : string) (db : database)
  : database * messagebox :=
  if String.eqb name "Digite o nome" || String.eqb name "" then
    (db, showwarning "Aviso" "O campo nome é obrigatório!")
  else if negb (String.eqb email "Digite o email")
          && negb (DataValidator.validate_email email) then
    (db, showwarning "Aviso" "Email inválido!")
  else
    match Sql.update Budgets.columns
            [("name", name); ("email", email); ("type", budget_type);
             ("completion", completion); ("deadline", deadline);
             ("service", service)]
            "budget_id" budget_id (budgets db) with
    | Sql.Ok rows =>
        ({| clients := clients db; budgets := rows |},
         showinfo "Sucesso" "Orçamento atualizado com sucesso!")
    | Sql.Err e =>
        (db, showerror "Erro" ("Erro ao atualizar orçamento: " ++ Sql.str e))
    end.

End open_edit_budget_dialog.

Definition delete_budget_record (selected_item : option Budgets.row)
           (confirm : bool) (db : database) : database * option messagebox :=
  match selected_item with
  | None =>
      (db, Some (showwarning "Aviso" "Selecione um orçamento para excluir."))
  | Some item =>
      let budget_id := Budgets.budget_id item in
      if confirm then
        match Sql.delete Budgets.columns "budget_id" budget_id (budgets db) with
        | Sql.Ok rows =>
            ({| clients := clients db; budgets := rows |},
             Some (showinfo "Sucesso" "Orçamento excluído com sucesso!"))
        | Sql.Err e =>
            (db, Some (showerror "Erro"
                         ("Erro ao excluir orçamento: " ++ Sql.str e)))
        end
      else (db, None)
  end.

End Budget.

(** ** Vocabulary of the properties *)

(** [t] occurs in [s]: some characters, then [t], then the rest. *)
Definition is_substring (t s : string) : Prop :=
  exists pre post : string, s = pre ++ t ++ post.

(** The clients of the search scenario. *)
Definition ana : Clients.row :=
  Clients.Build_row "AUT-1234" "Ana" "ana@x.com" "(11) 9 8765-4321" "" "03/11/2026".
Definition bruno : Clients.row :=
  Clients.Build_row "AUT-2345" "Bruno" "bruno@x.com" "(21) 9 1234-5678" "" "03/11/2026".
Definition carla : Clients.row :=
  Clients.Build_row "AUT-3456" "Carla" "Digite o email" "(XX) X XXXX-XXXX" "" "03/11/2026".

(** The [UPDATE] of the edit dialog, row by row. *)
Definition edited (client_id name email phone observation : string)
           (r : Clients.row) : Clients.row :=
  if String.eqb (Clients.client_id r) client_id
  then Clients.Build_row (Clients.client_id r) name email phone observation
                         (Clients.date_added r)
  else r.

(** The checks of [four_digit_id] on the digits of the identifier made
    from the draw [rnd], as a boolean. *)
Definition digits_check (rnd : N) : bool :=
  let d := Py.str_of_int (rnd + 1000) in
  (Py.len d =? 4) && Py.all_digits d && (Py.int_of_str d =? rnd + 1000)%N.

(** The name field holds a name: neither its placeholder nor nothing. *)
Definition name_given (name : string) : Prop :=
  name <> "Digite o nome" /\ name <> "".

(** What the subquery [(SELECT client_id FROM clients WHERE name=?)]
    yields: nothing when no client has the name, and otherwise the
    identifier of the first client, in storage order, that has it. *)
Inductive name_lookup (clients : list Clients.row) (client_name : string)
  : option string -> Prop :=
| lookup_none :
    (forall c, In c clients -> Clients.name c <> client_name) ->
    name_lookup clients client_name None
| lookup_first (before : list Clients.row) (c : Clients.row)
               (after : list Clients.row) :
    clients = (before ++ c :: after)%list ->
    (forall x, In x before -> Clients.name x <> client_name) ->
    Clients.name c = client_name ->
    name_lookup clients client_name (Some (Clients.client_id c)).

(** The client field of the add-budget dialog of [budget.py] is filled. *)
Definition client_name_given (client_name : string) : Prop :=
  client_name <> "Digite o nome do cliente" /\ client_name <> "".

(** A line feed. *)
Definition LF : string := String "010"%char "".

(** The characters an address of the shape is made of. *)
Definition email_char (c : ascii) : bool :=
  DataValidator.local_class c || Ascii.eqb c "@".

(** ** Further code of the two files *)

(** *** [DataValidator.validate_phone] *)

(** The pieces of [r'^\(?\d{2}\)?[\s-]?\d{4,5}-?\d{4}$'], each taking the
    rest of the pattern as the continuation [k].  [re.match] starts at
    offset 0, where [^] holds. *)
Module RePhone.

(** One character of the class. *)
Definition one (cls : ascii -> bool) (k : string -> bool) (s : string) : bool :=
  match s with
  | EmptyString => false
  | String c s' => cls c && k s'
  end.

(** [x?]: greedy, the character is taken first and given back when the
    rest fails. *)
Definition opt (cls : ascii -> bool) (k : string -> bool) (s : string) : bool :=
  one cls k s || k s.

Definition lparen (c : ascii) : bool := Ascii.eqb c "(".
Definition rparen (c : ascii) : bool := Ascii.eqb c ")".
Definition hyphen (c : ascii) : bool := Ascii.eqb c "-".

(** [[\s-]] *)
Definition space_or_hyphen (c : ascii) : bool := Py.is_space c || hyphen c.

(** [\d{4}] *)
Definition four_digits (k : string -> bool) : string -> bool :=
  one Py.is_digit (one Py.is_digit (one Py.is_digit (one Py.is_digit k))).

End RePhone.

Definition validate_phone (phone : string) : bool :=
  RePhone.opt RePhone.lparen
    (RePhone.one Py.is_digit (RePhone.one Py.is_digit
       (RePhone.opt RePhone.rparen
          (RePhone.opt RePhone.space_or_hyphen
             (RePhone.four_digits
                (RePhone.opt Py.is_digit
                   (RePhone.opt RePhone.hyphen
                      (RePhone.four_digits Re.at_eol))))))))
    phone.

(** *** [add_placeholder] and its two focus callbacks *)

Module add_placeholder.

(** What the callbacks read and write of the entry: its text and its
    foreground colour. *)
Record entry : Type := {
  text : string;
  foreground : string
}.

Definition PLACEHOLDER_COLOR : string := "#A9A9A9".
Definition TEXT_COLOR : string := "#FFFFFF".

(** [entry.insert(0, placeholder); entry.config(foreground=...)] *)
Definition add_placeholder (e : entry) (placeholder : string) : entry :=
  {| text := placeholder ++ text e; foreground := PLACEHOLDER_COLOR |}.

Definition on_focus_in (placeholder : string) (e : entry) : entry :=
  if String.eqb (text e) placeholder
  then {| text := ""; foreground := TEXT_COLOR |}
  else e.

Definition on_focus_out (placeholder : string) (e : entry) : entry :=
  if String.eqb (text e) ""
  then {| text := placeholder ++ text e; foreground := PLACEHOLDER_COLOR |}
  else e.

(** The user replaces the text of the entry that has the focus. *)
Definition typed (new_text : string) (e : entry) : entry :=
  {| text := new_text; foreground := foreground e |}.

End add_placeholder.

(** *** The catalog: [init_database] of both files *)

Module Catalog.

(** The tables of the database file, each with its column names in
    order.  The data definition statements act on it; the rows of an
    altered table get [NULL] in the added column. *)
Definition catalog : Type := list (string * list string).

(** SQLite compares table and column names without regard to (ASCII)
    case. *)
Definition same_name (a b : string) : bool :=
  String.eqb (Py.lower a) (Py.lower b).

Definition find_table (table : string) (cat : catalog)
  : option (string * list string) :=
  find (fun t => same_name (fst t) table) cat.

(** [CREATE TABLE IF NOT EXISTS table (cols)] *)
Definition create_table_if_not_exists (table : string) (cols : list string)
           (cat : catalog) : catalog :=
  match find_table table cat with
  | Some _ => cat
  | None => (cat ++ [(table, cols)])%list
  end.

(** [PRAGMA table_info(table)] followed by
    [[column[1] for column in cursor.fetchall()]]: the column names, none
    for a table that does not exist. *)
Definition table_info (table : string) (cat : catalog) : list string :=
  match find_table table cat with
  | Some t => snd t
  | None => []
  end.

(** [x in columns] of Python: the names compared as they are. *)
Definition py_in (x : string) (columns : list string) : bool :=
  existsb (String.eqb x) columns.

Fixpoint add_column (table col : string) (cat : catalog) : catalog :=
  match cat with
  | [] => []
  | t :: cat' =>
      if same_name (fst t) table
      then (fst t, (snd t ++ [col])%list) :: cat'
      else t :: add_column table col cat'
  end.

(** [ALTER TABLE table ADD COLUMN col TEXT] *)
Definition alter_table_add_column (table col : string) (cat : catalog)
  : Sql.result catalog :=
  match find_table table cat with
  | None => Sql.Err (Sql.OperationalError ("no such table: " ++ table))
  | Some t =>
      if existsb (same_name col) (snd t)
      then Sql.Err (Sql.OperationalError ("duplicate column name: " ++ col))
      else Sql.Ok (add_column table col cat)
  end.

Definition CLIENTS_COLUMNS : list string :=
  ["id"; "client_id"; "name"; "email"; "phone"; "observation"; "date_added"].

(** The part of [init_database] the two files share: the [clients] table
    and its two added columns.  A statement that raises leaves what the
    statements before it did. *)
Definition init_clients (cat : catalog) : catalog * option Sql.error :=
  let cat := create_table_if_not_exists "clients" CLIENTS_COLUMNS cat in
  let columns := table_info "clients" cat in
  let step1 :=
    if negb (py_in "client_id" columns)
    then alter_table_add_column "clients" "client_id" cat
    else Sql.Ok cat in
  match step1 with
  | Sql.Err e => (cat, Some e)
  | Sql.Ok cat1 =>
      let step2 :=
        if negb (py_in "date_added" columns)
        then alter_table_add_column "clients" "date_added" cat1
        else Sql.Ok cat1 in
      match step2 with
      | Sql.Err e => (cat1, Some e)
      | Sql.Ok cat2 => (cat2, None)
      end
  end.

(** [budgets] as [main.py] creates it. *)
Definition MAIN_BUDGETS_COLUMNS : list string :=
  ["id"; "budget_id"; "name"; "email"; "date"; "type"; "completion";
   "deadline"; "service"].

(** [budgets] as [budget.py] creates it. *)
Definition BUDGET_BUDGETS_COLUMNS : list string :=
  ["id"; "budget_id"; "client_id"; "date"; "type"; "completion"; "deadline";
   "service"].

Definition USERS_COLUMNS : list string := ["id"; "username"; "password"].

(** [DatabaseManager.init_database] of [main.py] *)
Definition main_init_database (cat : catalog) : catalog * option Sql.error :=
  match init_clients cat with
  | (cat1, Some e) => (cat1, Some e)
  | (cat1, None) =>
      (create_table_if_not_exists "budgets" MAIN_BUDGETS_COLUMNS cat1, None)
  end.

(** [DatabaseManager.init_database] of [budget.py] *)
Definition budget_init_database (cat : catalog) : catalog * option Sql.error :=
  match init_clients cat with
  | (cat1, Some e) => (cat1, Some e)
  | (cat1, None) =>
      let cat2 := create_table_if_not_exists "budgets" BUDGET_BUDGETS_COLUMNS cat1 in
      (create_table_if_not_exists "users" USERS_COLUMNS cat2, None)
  end.

(** [DatabaseApp.init_database]: the error is logged and shown. *)
Definition init_database (cat : catalog) : catalog * option messagebox :=
  match main_init_database cat with
  | (cat', None) => (cat', None)
  | (cat', Some e) =>
      (cat', Some (showerror "Database Error"
                     ("Failed to initialize database: " ++ Sql.str e)))
  end.

(** Every name of the catalog is written in lower case, as every name
    the two files write is. *)
Definition lower_case_names (cat : catalog) : Prop :=
  forall t, In t cat ->
            Py.lower (fst t) = fst t
            /\ forall c, In c (snd t) -> Py.lower c = c.

End Catalog.

(** *** The client combobox of [budget.py] *)

Module Combobox.



End Combobox.

(** *** Opening the edit-budget dialogs *)

Module EditBudgetDialog.

(** What [open_edit_budget_dialog] comes to before any button is
    pressed: the warning for an empty selection, an [IndexError] raised
    by [item['values'][i]], or the dialog with the identifier it keeps and
    the entries it shows. *)
Inductive opening : Type :=
| NothingSelected (m : messagebox)
| IndexError
| Dialog (budget_id : string) (entries : list (string * string)).

(** The texts [load_budget_data] of [budget.py] inserts for a row of
    the tree, seven of them; a [NULL] client reference is shown as [None].
    [item['values']] hands them back one for one, each as it is or, when it
    reads as an integer, as that number: [map convert] of this list, for
    the conversion [convert] of Tk, which the properties leave open. *)
Definition budget_tree_values (r : Budget.Budgets.row) : list string :=
  [Budget.Budgets.budget_id r;
   match Budget.Budgets.client_id r with Some c => c | None => "None" end;
   Budget.Budgets.date r; Budget.Budgets.type r; Budget.Budgets.completion r;
   Budget.Budgets.deadline r; Budget.Budgets.service r].

(** The body of [open_edit_budget_dialog], the same in both files, on
    the values of the selected item as [item['values']] hands them back
    (a number by its decimal text): [values[0]] first, then the six
    entries in the order the dictionary lists them. *)
Definition open_edit_budget_dialog (selected_item : option (list string))
  : opening :=
  match selected_item with
  | None =>
      NothingSelected (showwarning "Aviso" "Selecione um orçamento para editar.")
  | Some values =>
      match nth_error values 0, nth_error values 1, nth_error values 2,
            nth_error values 4, nth_error values 5, nth_error values 6,
            nth_error values 7 with
      | Some budget_id, Some v1, Some v2, Some v4, Some v5, Some v6, Some v7 =>
          Dialog budget_id
                 [("Nome:", v1); ("Email:", v2); ("Tipo:", v4);
                  ("Previsão de Conclusão:", v5); ("Prazo:", v6);
                  ("Serviço:", v7)]
      | _, _, _, _, _, _, _ => IndexError
      end
  end.



End EditBudgetDialog.

(** *** Vocabulary of the further properties *)

(** Nothing, or one character of the class. *)
Definition optional (cls : ascii -> bool) (o : string) : Prop :=
  o = "" \/ exists x : ascii, o = String x "" /\ cls x = true.

(** Exactly [n] characters, all of them digits. *)
Definition digits (n : nat) (s : string) : Prop :=
  Py.len s = n /\ Py.all_digits s = true.

(** The strings the phone pattern describes: an optional [(], two
    digits, an optional [)], an optional blank or hyphen, four or five
    digits, an optional hyphen, four digits, and the end of the string or
    a last line feed. *)
Definition phone_shape (s : string) : Prop :=
  exists o a c p b b5 h z e : string,
    s = o ++ a ++ c ++ p ++ b ++ b5 ++ h ++ z ++ e
    /\ optional RePhone.lparen o
    /\ digits 2 a
    /\ optional RePhone.rparen c
    /\ optional RePhone.space_or_hyphen p
    /\ digits 4 b
    /\ optional Py.is_digit b5
    /\ optional RePhone.hyphen h
    /\ digits 4 z
    /\ (e = "" \/ e = LF).

(** The email field holds the placeholder or an address the pattern
    accepts: the two ways past the email check of the dialogs. *)
Definition email_passes (email : string) : Prop :=
  email = "Digite o email" \/ DataValidator.validate_email email = true.

(** The record [save_client] of the add dialog stores. *)
Definition new_client (name email phone observation_text : string) (rnd : N)
           (today : string) : Clients.row :=
  Clients.Build_row (generate_client_id rnd) name email phone
                    (Py.strip observation_text) today.

(** The [UPDATE] of the edit-budget dialog of [main.py], row by row. *)
Definition edited_budget (budget_id name email budget_type completion deadline
                          service : string) (r : Main.Budgets.row)
  : Main.Budgets.row :=
  if String.eqb (Main.Budgets.budget_id r) budget_id
  then Main.Budgets.Build_row (Main.Budgets.budget_id r) name email
                              (Main.Budgets.date r) budget_type completion
                              deadline service
  else r.

(** [cat'] keeps every table of [cat] under its name, with the columns
    it had, in their order, followed at most by added [client_id] and
    [date_added] columns, and those only on the [clients] table. *)
Definition extends (cat cat' : Catalog.catalog) : Prop :=
  forall (t n : string) (cols : list string),
    Catalog.find_table t cat = Some (n, cols) ->
    exists extra : list string,
      Catalog.find_table t cat' = Some (n, (cols ++ extra)%list)
      /\ (Catalog.same_name t "clients" = false -> extra = [])
      /\ incl extra ["client_id"; "date_added"].

(** How many times the character [c] occurs in [s]. *)
Fixpoint count_char (c : ascii) (s : string) : nat :=
  match s with
  | EmptyString => 0
  | String a s' => (if Ascii.eqb a c then 1 else 0) + count_char c s'
  end.

(** *** Vocabulary of the search on stored rows *)

(** None of the six fields of the row is [NULL]. *)
Definition text_only (row : ClientsTable.row) : Prop :=
  forall v, In v (ClientsTable.values row) -> v <> None.

(** Some field of the row is a text that contains the term once
    lowercased. *)
Definition some_field_contains (search_term : string) (row : ClientsTable.row)
  : bool :=
  existsb (fun v => match v with
                    | Some text => Py.contains search_term (Py.lower text)
                    | None => false
                    end)
          (ClientsTable.values row).

(** The error box of [filter_data] when [lower] is called on [None]. *)
Definition filter_error : messagebox :=
  showerror "Erro"
            "Erro ao filtrar dados: 'NoneType' object has no attribute 'lower'".

(** Ana as a table of an older version held her, after [init_database]
    added the two columns: no identifier, no date. *)
Definition migrated_ana : ClientsTable.row :=
  {| ClientsTable.client_id := None;
     ClientsTable.name := Some "Ana";
     ClientsTable.email := Some "ana@x.com";
     ClientsTable.phone := Some "(11) 9 8765-4321";
     ClientsTable.observation := Some "";
     ClientsTable.date_added := None |}.

(** * Properties *)

(** ** Strings, and the definitions at work *)

Lemma append_nil_r (s : string) : s ++ "" = s.
Proof. induction s as [|c s IH]; simpl; [reflexivity | now rewrite IH]. Qed.

Lemma append_assoc (a b c : string) : (a ++ b) ++ c = a ++ (b ++ c).
Proof. induction a as [|x a IH]; simpl; [reflexivity | now rewrite IH]. Qed.

Example format_phone_entry_full :
  format_phone_entry "11987654321" = "(11) 9 8765-4321".
Proof. reflexivity. Qed.

Example format_phone_entry_partial :
  format_phone_entry "1198" = "(11) 9 8".
Proof. reflexivity. Qed.

Example format_phone_entry_long :
  format_phone_entry "119876543219999" = "(11) 9 8765-4321".
Proof. reflexivity. Qed.

Example validate_email_ok : DataValidator.validate_email "maria@x.com" = true.
Proof. reflexivity. Qed.

Example validate_email_no_at : DataValidator.validate_email "maria.x.com" = false.
Proof. reflexivity. Qed.

Example validate_email_empty : DataValidator.validate_email "" = false.
Proof. reflexivity. Qed.

Example generate_client_id_0 : generate_client_id 0 = "AUT-1000".
Proof. reflexivity. Qed.

Example generate_budget_id_8999 : generate_budget_id 8999 = "ART-9999".
Proof. reflexivity. Qed.

Example str_of_int_0 : Py.str_of_int 0 = "0".
Proof. reflexivity. Qed.

Example strip_example : Py.strip "  a b
" = "a b".
Proof. reflexivity. Qed.

(** ** The phone formatter *)

Lemma sub_non_digits_cons (c : ascii) (s : string) :
  Py.sub_non_digits (String c s) =
  if Py.is_digit c then String c (Py.sub_non_digits s) else Py.sub_non_digits s.
Proof. reflexivity. Qed.

Lemma sub_non_digits_all_digits (s : string) :
  Py.all_digits (Py.sub_non_digits s) = true.
Proof.
  induction s as [|c s IH]; simpl; [reflexivity|].
  destruct (Py.is_digit c) eqn:E; simpl; [now rewrite E | exact IH].
Qed.

(** On a string of digits the removal of non-digits does nothing. *)
Lemma sub_non_digits_id (d : string) :
  Py.all_digits d = true -> Py.sub_non_digits d = d.
Proof.
  induction d as [|c d IH]; simpl; [reflexivity|].
  intros H. apply andb_true_iff in H as [Hc Hd].
  now rewrite Hc, IH.
Qed.

(** Only the first eleven digits reach the rendering. *)
Lemma render_phone_slice (d : string) :
  render_phone (Py.slice d 0 11) = render_phone d.
Proof.
  destruct d as [|c1 [|c2 [|c3 [|c4 [|c5 [|c6 [|c7 [|c8 [|c9 [|c10 [|c11 r]]]]]]]]]]];
    try reflexivity.
  unfold render_phone, Py.slice, Py.len. simpl.
  destruct r; reflexivity.
Qed.

Ltac drop_separators :=
  repeat (rewrite sub_non_digits_cons;
          first [ match goal with
                  | H : Py.is_digit ?c = true |- context [Py.is_digit ?c] =>
                      rewrite H
                  end
                | change (Py.is_digit "("%char) with false
                | change (Py.is_digit ")"%char) with false
                | change (Py.is_digit " "%char) with false
                | change (Py.is_digit "-"%char) with false ];
          cbv iota).

(** The digits of the rendering are the first eleven digits rendered. *)
Lemma sub_non_digits_render (d : string) :
  Py.all_digits d = true ->
  Py.sub_non_digits (render_phone d) = Py.slice d 0 11.
Proof.
  intros H.
  destruct d as [|c1 [|c2 [|c3 [|c4 [|c5 [|c6 [|c7 [|c8 [|c9 [|c10 [|c11 r]]]]]]]]]]];
    simpl in H;
    repeat match type of H with
           | _ && _ = true => let Hc := fresh "Hc" in
                              apply andb_true_iff in H as [Hc H]
           end;
    unfold render_phone, Py.slice, Py.len;
    cbn -[Py.sub_non_digits Py.is_digit];
    drop_separators; try reflexivity.
  destruct r; reflexivity.
Qed.

Lemma slice_min (d : string) :
  Py.slice d 0 (Nat.min (Py.len d) 11) = Py.slice d 0 11.
Proof.
  destruct d as [|c1 [|c2 [|c3 [|c4 [|c5 [|c6 [|c7 [|c8 [|c9 [|c10 [|c11 r]]]]]]]]]]];
    try reflexivity.
  unfold Py.slice, Py.len.
  rewrite Nat.min_r by (simpl; lia).
  reflexivity.
Qed.

Lemma length_substring_0 (m : nat) (s : string) :
  String.length (substring 0 m s) = Nat.min (String.length s) m.
Proof.
  revert s; induction m as [|m IH]; intros s.
  - destruct s; reflexivity.
  - destruct s as [|c s]; simpl; [reflexivity | now rewrite IH].
Qed.

(** C10. The phone formatter uses at most the first eleven digits of its
    input: the digits that appear in the formatted text are, in order,
    the first [min n 11] digits of the input, [n] being the number of
    digits of the input, and there are [min n 11] of them; a twelfth and
    later digits are dropped. *)
Theorem format_phone_entry_first_11_digits (entry : string) :
  let digits := Py.sub_non_digits entry in
  let n := Py.len digits in
  Py.sub_non_digits (format_phone_entry entry) = Py.slice digits 0 (Nat.min n 11)
  /\ Py.len (Py.sub_non_digits (format_phone_entry entry)) = Nat.min n 11.
Proof.
  intros digits n.
  assert (E : Py.sub_non_digits (format_phone_entry entry)
              = Py.slice digits 0 (Nat.min n 11)).
  { unfold format_phone_entry. fold digits.
    rewrite sub_non_digits_render by apply sub_non_digits_all_digits.
    symmetry. apply slice_min. }
  split; [exact E|].
  rewrite E. unfold Py.slice, Py.len. rewrite Nat.sub_0_r.
  rewrite length_substring_0. fold (Py.len digits). fold n. lia.
Qed.

(** C6. The phone formatter is idempotent: formatting the text it
    produced gives that text again, whatever the input; and the formatted
    text ["(11) 9 8765-4321"] is returned as it is. *)
Theorem format_phone_entry_idempotent :
  (forall entry : string,
      format_phone_entry (format_phone_entry entry) = format_phone_entry entry)
  /\ format_phone_entry "(11) 9 8765-4321" = "(11) 9 8765-4321".
Proof.
  split; [|reflexivity].
  intros entry. unfold format_phone_entry.
  rewrite sub_non_digits_render by apply sub_non_digits_all_digits.
  apply render_phone_slice.
Qed.

(** ** The search filter *)

Lemma startswith_spec (p s : string) :
  Py.startswith p s = true <-> exists rest : string, s = p ++ rest.
Proof.
  revert s; induction p as [|a p IH]; intros s; simpl.
  - split; [intros _; now exists s | reflexivity].
  - destruct s as [|b s].
    + split; [discriminate | intros [rest H]; discriminate H].
    + rewrite andb_true_iff, Ascii.eqb_eq, IH. split.
      * intros [-> [rest ->]]. now exists rest.
      * intros [rest H]. injection H as -> ->. split; [reflexivity | now exists rest].
Qed.

Lemma contains_spec (sub s : string) :
  Py.contains sub s = true <-> is_substring sub s.
Proof.
  unfold is_substring. induction s as [|c s IH].
  - simpl. rewrite orb_false_r, startswith_spec. split.
    + intros [rest H]. now exists "", rest.
    + intros [pre [post H]]. destruct pre; [now exists post | discriminate H].
  - change (Py.contains sub (String c s))
      with (Py.startswith sub (String c s) || Py.contains sub s).
    rewrite orb_true_iff, startswith_spec, IH. split.
    + intros [[rest H] | [pre [post H]]].
      * now exists "", rest.
      * exists (String c pre), post. simpl. now rewrite H.
    + intros [pre [post H]]. destruct pre as [|c' pre].
      * left. now exists post.
      * right. simpl in H. injection H as _ H. now exists pre, post.
Qed.

Lemma fold_left_insert_end {A : Type} (keep : A -> bool) (rows tree : list A) :
  fold_left (fun tree row => if keep row then (tree ++ [row])%list else tree)
            rows tree
  = (tree ++ filter keep rows)%list.
Proof.
  revert tree; induction rows as [|r rows IH]; intros tree; simpl.
  - now rewrite app_nil_r.
  - rewrite IH. destruct (keep r); [|reflexivity].
    now rewrite <- app_assoc.
Qed.

Lemma some_field_contains_spec (search_term : string) (row : ClientsTable.row) :
  some_field_contains search_term row = true <->
  exists field : string,
    In (Some field) (ClientsTable.values row)
    /\ is_substring search_term (Py.lower field).
Proof.
  unfold some_field_contains. rewrite existsb_exists. split.
  - intros [[field|] [Hin H]]; [|discriminate H].
    exists field. split; [exact Hin | now apply contains_spec].
  - intros [field [Hin H]]. exists (Some field).
    split; [exact Hin | now apply contains_spec].
Qed.

(** On a row without [NULL] the six tests run to the end and give the
    disjunction. *)
Lemma row_matches_text_only (search_term : string) (row : ClientsTable.row) :
  text_only row ->
  Main.row_matches search_term row = Some (some_field_contains search_term row).
Proof.
  intros T. destruct row as [i n e p o d].
  unfold text_only, ClientsTable.values in T. cbn in T.
  destruct i as [i|]; [|now elim (T None ltac:(tauto))].
  destruct n as [n|]; [|now elim (T None ltac:(tauto))].
  destruct e as [e|]; [|now elim (T None ltac:(tauto))].
  destruct p as [p|]; [|now elim (T None ltac:(tauto))].
  destruct o as [o|]; [|now elim (T None ltac:(tauto))].
  destruct d as [d|]; [|now elim (T None ltac:(tauto))].
  unfold Main.row_matches, some_field_contains, Main.in_lower. cbn.
  destruct (Py.contains search_term (Py.lower i));
    destruct (Py.contains search_term (Py.lower n));
    destruct (Py.contains search_term (Py.lower e));
    destruct (Py.contains search_term (Py.lower p));
    destruct (Py.contains search_term (Py.lower o));
    destruct (Py.contains search_term (Py.lower d)); reflexivity.
Qed.

(** [row[0].lower()] is the first call of the test. *)
Lemma row_matches_null_id (search_term : string) (row : ClientsTable.row) :
  ClientsTable.client_id row = None -> Main.row_matches search_term row = None.
Proof. intros H. unfold Main.row_matches. now rewrite H. Qed.

Lemma filter_loop_text_only (search_term : string)
      (rows rest tree : list ClientsTable.row) :
  (forall row, In row rows -> text_only row) ->
  Main.filter_loop search_term (rows ++ rest) tree
  = Main.filter_loop search_term rest
      (tree ++ filter (some_field_contains search_term) rows).
Proof.
  revert tree; induction rows as [|r rows IH]; intros tree T.
  - simpl. now rewrite app_nil_r.
  - simpl. rewrite (row_matches_text_only _ r (T r (or_introl eq_refl))).
    destruct (some_field_contains search_term r).
    + rewrite IH by (intros x Hx; apply T; now right).
      now rewrite <- app_assoc.
    + apply IH. intros x Hx. apply T. now right.
Qed.

Lemma text_only_written (r : Clients.row) : text_only (ClientsTable.written r).
Proof.
  intros v Hin. simpl in Hin.
  destruct Hin as [<-|[<-|[<-|[<-|[<-|[<-|[]]]]]]]; discriminate.
Qed.

(** In the search scenario only the name of Ana contains ["an"]. *)
Lemma scenario_some_field_contains (r : Clients.row) :
  (forall field : string,
      In field [Clients.client_id r; Clients.email r; Clients.phone r;
                Clients.observation r; Clients.date_added r] ->
      ~ is_substring "an" (Py.lower field)) ->
  some_field_contains "an" (ClientsTable.written r)
  = Py.contains "an" (Py.lower (Clients.name r)).
Proof.
  intros H.
  destruct (Py.contains "an" (Py.lower (Clients.name r))) eqn:N.
  - apply some_field_contains_spec. exists (Clients.name r). split.
    + simpl. tauto.
    + now apply contains_spec.
  - destruct (some_field_contains "an" (ClientsTable.written r)) eqn:M;
      [|reflexivity].
    apply some_field_contains_spec in M as [field [Hin Hsub]].
    simpl in Hin.
    destruct Hin as [E|[E|[E|[E|[E|[E|[]]]]]]]; injection E as <-;
      first [ apply contains_spec in Hsub; congruence
            | exfalso; eapply H; [|exact Hsub]; simpl; tauto ].
Qed.

(** C1.  What [filter_data] does on the table as stored.  When no field
    of any row is [NULL], the filtered listing shows, in storage order,
    exactly the rows in which the lowercased term occurs in the lowercased
    text of at least one of the six fields, and no message box is raised;
    with clients named Ana, Bruno and Carla, the other fields of Bruno and
    Carla being free of ["an"], the term ["an"] lists Ana alone.  But a row
    whose identifier is [NULL], as [init_database] leaves the rows of an
    older table, ends the listing: the rows before it are filtered, the
    error box is shown, and neither that row nor any row after it is
    listed, whatever they hold.  So the search for ["an"] on a table that
    starts with a migrated Ana lists nothing. *)
Theorem filter_data_on_stored_rows :
  (forall (search_entry : string) (rows : list ClientsTable.row),
      (forall row, In row rows -> text_only row) ->
      Main.filter_data search_entry rows
      = (filter (some_field_contains (Py.lower search_entry)) rows, None))
  /\ (forall (search_term : string) (row : ClientsTable.row),
         some_field_contains search_term row = true <->
         exists field : string,
           In (Some field) (ClientsTable.values row)
           /\ is_substring search_term (Py.lower field))
  /\ (forall a b c : Clients.row,
         Clients.name a = "Ana" ->
         Clients.name b = "Bruno" ->
         Clients.name c = "Carla" ->
         (forall r field : _,
             In r [b; c] ->
             In field [Clients.client_id r; Clients.email r; Clients.phone r;
                       Clients.observation r; Clients.date_added r] ->
             ~ is_substring "an" (Py.lower field)) ->
         Main.filter_data "an" (map ClientsTable.written [a; b; c])
         = ([ClientsTable.written a], None))
  /\ (forall (search_entry : string) (before : list ClientsTable.row)
             (row : ClientsTable.row) (after : list ClientsTable.row),
         (forall r, In r before -> text_only r) ->
         ClientsTable.client_id row = None ->
         Main.filter_data search_entry (before ++ row :: after)
         = (filter (some_field_contains (Py.lower search_entry)) before,
            Some filter_error))
  /\ Main.filter_data "an" [migrated_ana; ClientsTable.written bruno]
     = ([], Some filter_error)
  /\ some_field_contains "an" migrated_ana = true.
Proof.
  split; [|split; [|split; [|split; [|split; reflexivity]]]].
  - intros search_entry rows T. unfold Main.filter_data.
    rewrite <- (app_nil_r rows) at 1.
    now rewrite (filter_loop_text_only _ rows [] [] T).
  - apply some_field_contains_spec.
  - intros a b c Ha Hb Hc H. unfold Main.filter_data.
    change (Py.lower "an") with "an".
    rewrite <- (app_nil_r (map ClientsTable.written [a; b; c])).
    rewrite filter_loop_text_only.
    + cbn [map filter app Main.filter_loop].
      assert (Ma : some_field_contains "an" (ClientsTable.written a) = true).
      { apply some_field_contains_spec. exists (Clients.name a). split.
        - simpl. tauto.
        - rewrite Ha. now apply contains_spec. }
      assert (Mb : some_field_contains "an" (ClientsTable.written b) = false).
      { rewrite scenario_some_field_contains, Hb; [reflexivity|].
        intros field. apply H. simpl. tauto. }
      assert (Mc : some_field_contains "an" (ClientsTable.written c) = false).
      { rewrite scenario_some_field_contains, Hc; [reflexivity|].
        intros field. apply H. simpl. tauto. }
      now rewrite Ma, Mb, Mc.
    + intros row Hin. apply in_map_iff in Hin as [r [<- _]].
      apply text_only_written.
  - intros search_entry before row after T Hid. unfold Main.filter_data.
    rewrite (filter_loop_text_only _ before (row :: after) [] T).
    cbn [Main.filter_loop app]. now rewrite (row_matches_null_id _ row Hid).
Qed.

(** The scenario with [ana], [bruno] and [carla] as the application
    wrote them. *)
Lemma filter_data_on_stored_rows_witness :
  Main.filter_data "an" (map ClientsTable.written [ana; bruno; carla])
  = ([ClientsTable.written ana], None).
Proof.
  apply (proj1 (proj2 (proj2 filter_data_on_stored_rows)) ana bruno carla);
    try reflexivity.
  intros r field [<-|[<-|[]]] Hin Hsub; apply contains_spec in Hsub;
    simpl in Hin; destruct Hin as [<-|[<-|[<-|[<-|[<-|[]]]]]];
    discriminate Hsub.
Defined.

(** ** Editing and deleting records *)

Lemma fold_left_insert_all {A : Type} (rows tree : list A) :
  fold_left (fun tree row => (tree ++ [row])%list) rows tree
  = (tree ++ rows)%list.
Proof.
  revert tree; induction rows as [|r rows IH]; intros tree; simpl.
  - now rewrite app_nil_r.
  - rewrite IH. now rewrite <- app_assoc.
Qed.

Lemma load_data_lists_clients (db : Main.database) :
  Main.load_data db = (Main.clients db, None).
Proof. unfold Main.load_data. simpl. now rewrite fold_left_insert_all. Qed.

Lemma save_client_edit_eq (client_id name email phone observation_text : string)
      (db : Main.database) :
  Main.open_edit_client_observation_dialog.save_client
    client_id name email phone observation_text db
  = (Main.Build_database
       (map (edited client_id name email phone (Py.strip observation_text))
            (Main.clients db))
       (Main.budgets db),
     showinfo "Sucesso" "Cliente atualizado com sucesso!").
Proof. reflexivity. Qed.

(** C2. Editing a client by its identifier with a new name, email and
    phone and the observation read from the text box (the text, stripped
    as [save_client] does) succeeds and leaves as many records as before;
    the record at each position keeps its identifier and its date added;
    when its identifier is the edited one it holds exactly the new name,
    email, phone and observation, and otherwise it is the record that was
    there; the budgets are untouched and the reloaded listing shows the
    stored records. *)
Theorem edit_client_updates_mutable_fields
        (client_id name email phone observation_text : string)
        (db : Main.database) :
  let observation := Py.strip observation_text in
  exists db' : Main.database,
    Main.open_edit_client_observation_dialog.save_client
      client_id name email phone observation_text db
    = (db', showinfo "Sucesso" "Cliente atualizado com sucesso!")
    /\ Main.budgets db' = Main.budgets db
    /\ List.length (Main.clients db') = List.length (Main.clients db)
    /\ Main.load_data db' = (Main.clients db', None)
    /\ forall (i : nat) (r : Clients.row),
        nth_error (Main.clients db) i = Some r ->
        exists r' : Clients.row,
          nth_error (Main.clients db') i = Some r'
          /\ Clients.client_id r' = Clients.client_id r
          /\ Clients.date_added r' = Clients.date_added r
          /\ (Clients.client_id r = client_id ->
              Clients.name r' = name /\ Clients.email r' = email
              /\ Clients.phone r' = phone
              /\ Clients.observation r' = observation)
          /\ (Clients.client_id r <> client_id -> r' = r).
Proof.
  intros observation. eexists. split; [apply save_client_edit_eq|].
  cbn [Main.clients Main.budgets].
  split; [reflexivity|]. split; [apply length_map|].
  split; [apply load_data_lists_clients|].
  intros i r Hi.
  exists (edited client_id name email phone observation r).
  split; [now rewrite nth_error_map, Hi|].
  unfold edited. destruct (String.eqb_spec (Clients.client_id r) client_id) as [E|E];
    cbn; repeat split; try reflexivity; try tauto; intros; tauto.
Qed.

(** Ana's record edited: the new fields are stored, the date stays. *)
Lemma edit_client_updates_mutable_fields_witness :
  exists r' : Clients.row,
    nth_error
      (Main.clients
         (fst (Main.open_edit_client_observation_dialog.save_client
                 "AUT-1234" "Ana Maria" "ana.maria@x.com" "(11) 9 0000-0000"
                 " prefers email
" (Main.Build_database [ana; bruno] []))))
      0 = Some r'
    /\ Clients.name r' = "Ana Maria"
    /\ Clients.observation r' = "prefers email"
    /\ Clients.date_added r' = "03/11/2026".
Proof.
  destruct (edit_client_updates_mutable_fields
              "AUT-1234" "Ana Maria" "ana.maria@x.com" "(11) 9 0000-0000"
              " prefers email
" (Main.Build_database [ana; bruno] []))
    as [db' [E [_ [_ [_ H]]]]].
  destruct (H 0 ana eq_refl) as [r' [Hn [_ [Hd [Hf _]]]]].
  destruct (Hf eq_refl) as [Hname [_ [_ Hobs]]].
  exists r'. rewrite E. repeat split; assumption.
Defined.

Lemma filter_none {A : Type} (f : A -> bool) (l : list A) :
  (forall x, In x l -> f x = true) -> filter f l = l.
Proof.
  induction l as [|a l IH]; simpl; intros H; [reflexivity|].
  rewrite (H a) by now left. f_equal. apply IH. intros x Hx. apply H. now right.
Qed.

Lemma filter_twice {A : Type} (f : A -> bool) (l : list A) :
  filter f (filter f l) = filter f l.
Proof.
  apply filter_none. intros x Hx. now apply filter_In in Hx.
Qed.

(** C3. Deleting, once confirmed, a client or a budget whose identifier
    no stored record carries leaves the store as it is and ends with the
    success message, in [main.py] and in [budget.py]; so a second delete
    with the identifier just deleted changes nothing and succeeds too. *)
Theorem delete_absent_identifier_is_noop :
  (forall (db : Main.database) (item : Clients.row),
      (forall r, In r (Main.clients db) ->
                 Clients.client_id r <> Clients.client_id item) ->
      Main.delete_client_record (Some item) true db
      = (db, Some (showinfo "Sucesso" "Cliente excluído com sucesso!")))
  /\ (forall (db : Main.database) (item : Main.Budgets.row),
         (forall r, In r (Main.budgets db) ->
                    Main.Budgets.budget_id r <> Main.Budgets.budget_id item) ->
         Main.delete_budget_record (Some item) true db
         = (db, Some (showinfo "Sucesso" "Orçamento excluído com sucesso!")))
  /\ (forall (db : Budget.database) (item : Budget.Budgets.row),
         (forall r, In r (Budget.budgets db) ->
                    Budget.Budgets.budget_id r <> Budget.Budgets.budget_id item) ->
         Budget.delete_budget_record (Some item) true db
         = (db, Some (showinfo "Sucesso" "Orçamento excluído com sucesso!")))
  /\ (forall (db : Main.database) (item : Clients.row),
         let db1 := fst (Main.delete_client_record (Some item) true db) in
         Main.delete_client_record (Some item) true db1
         = (db1, Some (showinfo "Sucesso" "Cliente excluído com sucesso!")))
  /\ (forall (db : Main.database) (item : Main.Budgets.row),
         let db1 := fst (Main.delete_budget_record (Some item) true db) in
         Main.delete_budget_record (Some item) true db1
         = (db1, Some (showinfo "Sucesso" "Orçamento excluído com sucesso!")))
  /\ (forall (db : Budget.database) (item : Budget.Budgets.row),
         let db1 := fst (Budget.delete_budget_record (Some item) true db) in
         Budget.delete_budget_record (Some item) true db1
         = (db1, Some (showinfo "Sucesso" "Orçamento excluído com sucesso!"))).
Proof.
  repeat split.
  - intros [cs bs] item H. cbn. rewrite filter_none; [reflexivity|].
    intros r Hr. apply negb_true_iff, String.eqb_neq. now apply H.
  - intros [cs bs] item H. cbn. rewrite filter_none; [reflexivity|].
    intros r Hr. apply negb_true_iff, String.eqb_neq. now apply H.
  - intros [cs bs] item H. cbn. rewrite filter_none; [reflexivity|].
    intros r Hr. apply negb_true_iff, String.eqb_neq. now apply H.
  - intros [cs bs] item. cbn. now rewrite filter_twice.
  - intros [cs bs] item. cbn. now rewrite filter_twice.
  - intros [cs bs] item. cbn. now rewrite filter_twice.
Qed.

(** Carla is not in the store: deleting her record changes nothing. *)
Lemma delete_absent_identifier_is_noop_witness :
  Main.delete_client_record (Some carla) true (Main.Build_database [ana; bruno] [])
  = (Main.Build_database [ana; bruno] [],
     Some (showinfo "Sucesso" "Cliente excluído com sucesso!")).
Proof.
  apply (proj1 delete_absent_identifier_is_noop
               (Main.Build_database [ana; bruno] []) carla).
  intros r [<-|[<-|[]]]; discriminate.
Defined.

(** ** Identifiers *)

Lemma randbelow_outcomes_In (n r : N) :
  In r (randbelow_outcomes n) <-> (r < n)%N.
Proof.
  unfold randbelow_outcomes. rewrite in_map_iff. split.
  - intros [k [<- Hk]]. apply in_seq in Hk. lia.
  - intros H. exists (N.to_nat r). split; [apply N2Nat.id|].
    apply in_seq. lia.
Qed.

Lemma randbelow_outcomes_NoDup (n : N) : NoDup (randbelow_outcomes n).
Proof.
  unfold randbelow_outcomes. apply NoDup_map_NoDup_ForallPairs.
  - intros a b _ _ H. now apply Nat2N.inj.
  - apply seq_NoDup.
Qed.

Lemma randbelow_outcomes_length (n : N) :
  List.length (randbelow_outcomes n) = N.to_nat n.
Proof. unfold randbelow_outcomes. now rewrite length_map, length_seq. Qed.

Lemma digits_checked :
  forallb digits_check (randbelow_outcomes 9000) = true.
Proof. vm_compute. reflexivity. Qed.

Lemma digits_check_below (rnd : N) :
  (rnd < 9000)%N ->
  let d := Py.str_of_int (rnd + 1000) in
  Py.len d = 4 /\ Py.all_digits d = true /\ Py.int_of_str d = (rnd + 1000)%N.
Proof.
  intros H d. apply randbelow_outcomes_In in H.
  pose proof digits_checked as C. rewrite forallb_forall in C.
  specialize (C rnd H). unfold digits_check in C. fold d in C.
  apply andb_true_iff in C as [C Hint].
  apply andb_true_iff in C as [Hlen Hdig].
  apply Nat.eqb_eq in Hlen. apply N.eqb_eq in Hint. now repeat split.
Qed.

Lemma four_digit_id_below (prefix : string) (rnd : N) :
  (rnd < 9000)%N ->
  four_digit_id prefix (prefix ++ Py.str_of_int (rnd + 1000)).
Proof.
  intros H. destruct (digits_check_below rnd H) as [Hlen [Hdig Hint]].
  exists (Py.str_of_int (rnd + 1000)).
  repeat split; try assumption; rewrite Hint; lia.
Qed.

Lemma str_of_int_inj (a b : N) :
  (a < 9000)%N -> (b < 9000)%N ->
  Py.str_of_int (a + 1000) = Py.str_of_int (b + 1000) -> a = b.
Proof.
  intros Ha Hb E.
  destruct (digits_check_below a Ha) as [_ [_ Ia]].
  destruct (digits_check_below b Hb) as [_ [_ Ib]].
  rewrite E in Ia. rewrite Ia in Ib. lia.
Qed.

Lemma id_outcomes (prefix : string) :
  let ids := map (fun rnd => prefix ++ Py.str_of_int (rnd + 1000))
                 (randbelow_outcomes 9000) in
  List.length ids = N.to_nat 9000
  /\ NoDup ids
  /\ forall id : string,
      In id ids <->
      exists n : N, (1000 <= n <= 9999)%N /\ id = prefix ++ Py.str_of_int n.
Proof.
  intros ids. unfold ids. split; [|split].
  - now rewrite length_map, randbelow_outcomes_length.
  - apply NoDup_map_NoDup_ForallPairs; [|apply randbelow_outcomes_NoDup].
    intros a b Ha Hb E. apply randbelow_outcomes_In in Ha, Hb.
    apply str_of_int_inj; try assumption.
    clear -E. induction prefix as [|c p IH]; simpl in E; [assumption|].
    injection E as E. now apply IH.
  - intros id. rewrite in_map_iff. split.
    + intros [rnd [<- H]]. apply randbelow_outcomes_In in H.
      exists (rnd + 1000)%N. split; [lia | reflexivity].
    + intros [n [Hn ->]]. exists (n - 1000)%N. split.
      * f_equal. f_equal. lia.
      * apply randbelow_outcomes_In. lia.
Qed.

(** C5. Whatever integer [secrets.randbelow(9000)] draws, the client
    identifier is ["AUT-"] and the budget identifier ["ART-"] followed by
    four decimal digits that read as a number from 1000 to 9999.  The
    9000 equally likely draws give 9000 different identifiers, one for
    each number of that range, so every such identifier is as likely as
    any other. *)
Theorem generated_identifiers_shape_and_distribution :
  (forall rnd : N,
      (rnd < 9000)%N ->
      four_digit_id "AUT-" (generate_client_id rnd)
      /\ four_digit_id "ART-" (generate_budget_id rnd))
  /\ (List.length client_id_outcomes = N.to_nat 9000
      /\ NoDup client_id_outcomes
      /\ forall id : string,
          In id client_id_outcomes <->
          exists n : N, (1000 <= n <= 9999)%N /\ id = "AUT-" ++ Py.str_of_int n)
  /\ (List.length budget_id_outcomes = N.to_nat 9000
      /\ NoDup budget_id_outcomes
      /\ forall id : string,
          In id budget_id_outcomes <->
          exists n : N, (1000 <= n <= 9999)%N /\ id = "ART-" ++ Py.str_of_int n).
Proof.
  split; [|split].
  - intros rnd H.
    split; [exact (four_digit_id_below "AUT-" rnd H)
           | exact (four_digit_id_below "ART-" rnd H)].
  - exact (id_outcomes "AUT-").
  - exact (id_outcomes "ART-").
Qed.

(** The smallest draw gives [AUT-1000] and [ART-1000]. *)
Lemma generated_identifiers_shape_and_distribution_witness :
  four_digit_id "AUT-" (generate_client_id 0)
  /\ four_digit_id "ART-" (generate_budget_id 0).
Proof.
  apply (proj1 generated_identifiers_shape_and_distribution 0%N).
  reflexivity.
Defined.

(** ** The email gate of the add dialogs *)

Lemma name_given_test (name : string) :
  name_given name ->
  String.eqb name "Digite o nome" || String.eqb name "" = false.
Proof.
  intros [H1 H2]. apply orb_false_iff. split; now apply String.eqb_neq.
Qed.

(** An empty email does not pass the check of the add-client dialog nor
    that of the add-budget dialog: both answer "Email inválido!" and
    write nothing. *)
Lemma empty_email_is_rejected :
  Main.open_add_client_dialog.next_step "Maria Silva" "" "(11) 9 8765-4321"
  = Stop (showwarning "Aviso" "Email inválido!")
  /\ Main.open_add_budget_dialog.save_budget
       "Maria Silva" "" "Logo" "Selecione a data" "Digite o prazo"
       "Selecione o serviço" 0%N "03/11/2026" (Main.Build_database [] [])
     = (Main.Build_database [] [], showwarning "Aviso" "Email inválido!").
Proof. split; reflexivity. Qed.

(** C4, amended.  An email other than the placeholder ["Digite o email"]
    that does not match the email pattern is rejected by the add-client
    and the add-budget dialogs with a warning, and nothing is written;
    the placeholder is taken as "not provided" and passes the email
    check: with a name given, the client dialog goes on to its second
    step and the budget is inserted. *)
Theorem add_dialogs_email_gate (email : string) :
  (email <> "Digite o email" ->
   DataValidator.validate_email email = false ->
   forall (name phone observation_text budget_type completion deadline
           service : string) (rnd : N) (today : string) (db : Main.database),
     (exists text : string,
         Main.open_add_client_dialog.next_step name email phone
         = Stop (showwarning "Aviso" text))
     /\ (exists text : string,
            Main.add_client name email phone observation_text rnd today db
            = (db, showwarning "Aviso" text))
     /\ (exists text : string,
            Main.open_add_budget_dialog.save_budget
              name email budget_type completion deadline service rnd today db
            = (db, showwarning "Aviso" text)))
  /\ (email = "Digite o email" ->
      forall (name phone budget_type completion deadline service : string)
             (rnd : N) (today : string) (db : Main.database),
        name_given name ->
        Main.open_add_client_dialog.next_step name email phone
        = Continue (name, email, phone)
        /\ Main.open_add_budget_dialog.save_budget
             name email budget_type completion deadline service rnd today db
           = (Main.Build_database
                (Main.clients db)
                (Main.budgets db ++
                 [Main.Budgets.Build_row (generate_budget_id rnd) name email
                    today budget_type completion deadline service])%list,
              showinfo "Sucesso" "Orçamento adicionado com sucesso!")).
Proof.
  split.
  - intros Hp Hv name phone observation_text budget_type completion deadline
           service rnd today db.
    apply String.eqb_neq in Hp.
    unfold Main.add_client, Main.open_add_client_dialog.next_step,
      Main.open_add_budget_dialog.save_budget.
    rewrite Hp, Hv. cbn [negb andb].
    destruct (String.eqb name "Digite o nome" || String.eqb name "");
      repeat split; eexists; reflexivity.
  - intros -> name phone budget_type completion deadline service rnd today db Hn.
    unfold Main.open_add_client_dialog.next_step,
      Main.open_add_budget_dialog.save_budget.
    rewrite (name_given_test name Hn). split; reflexivity.
Qed.

(** The gate at work: ["maria"] is refused, the placeholder goes through. *)
Lemma add_dialogs_email_gate_witness :
  (exists text : string,
      Main.open_add_client_dialog.next_step "Maria Silva" "maria" ""
      = Stop (showwarning "Aviso" text))
  /\ Main.open_add_client_dialog.next_step "Maria Silva" "Digite o email" ""
     = Continue ("Maria Silva", "Digite o email", "").
Proof.
  split.
  - refine (proj1 (proj1 (add_dialogs_email_gate "maria") _ _
                     "Maria Silva" "" "" "" "" "" "" 0%N ""
                     (Main.Build_database [] []))).
    + discriminate.
    + reflexivity.
  - refine (proj1 (proj2 (add_dialogs_email_gate "Digite o email") eq_refl
                     "Maria Silva" "" "" "" "" "" 0%N ""
                     (Main.Build_database [] []) _)).
    split; discriminate.
Defined.

(** ** Budgets of [budget.py] *)

Lemma find_name_lookup (clients : list Clients.row) (client_name : string) :
  name_lookup clients client_name
    (match find (fun r => String.eqb (Clients.name r) client_name) clients with
     | Some r => Some (Clients.client_id r)
     | None => None
     end).
Proof.
  destruct (find _ clients) as [c|] eqn:F.
  - induction clients as [|x xs IH]; [discriminate F|].
    simpl in F. destruct (String.eqb_spec (Clients.name x) client_name) as [E|E].
    + injection F as <-. apply (lookup_first _ _ [] x xs); [reflexivity | | exact E].
      intros y [].
    + specialize (IH F). inversion IH as [|before c' after Hxs Hb Hc Hid].
      apply (lookup_first _ _ (x :: before) c' after).
      * now rewrite Hxs.
      * intros y [<-|Hy]; [exact E | now apply Hb].
      * exact Hc.
  - apply lookup_none. intros c Hc E.
    apply (find_none _ _ F) in Hc. apply String.eqb_neq in Hc. now apply Hc.
Qed.

(** C7. With the client field filled, [save_budget] of the add dialog of
    [budget.py] appends one budget whose client reference is what the
    name lookup on the clients table yields at that moment, and reports
    success; when no client has the name the reference stored is empty
    ([NULL]) and the insert succeeds all the same. *)
Theorem add_budget_looks_up_client_by_name
        (client_name budget_type completion deadline service : string)
        (rnd : N) (today : string) (db : Budget.database) :
  client_name_given client_name ->
  exists client_ref : option string,
    name_lookup (Budget.clients db) client_name client_ref
    /\ Budget.open_add_budget_dialog.save_budget
         client_name budget_type completion deadline service rnd today db
       = (Budget.Build_database
            (Budget.clients db)
            (Budget.budgets db ++
             [Budget.Budgets.Build_row (generate_budget_id rnd) client_ref today
                budget_type completion deadline service])%list,
          showinfo "Sucesso" "Orçamento adicionado com sucesso!")
    /\ ((forall c, In c (Budget.clients db) -> Clients.name c <> client_name) ->
        client_ref = None).
Proof.
  intros [H1 H2].
  eexists. split; [apply find_name_lookup|]. split.
  - unfold Budget.open_add_budget_dialog.save_budget.
    apply String.eqb_neq in H1, H2. rewrite H1, H2. reflexivity.
  - intros Hno. destruct (find _ (Budget.clients db)) as [c|] eqn:F; [|reflexivity].
    apply find_some in F as [Hin E]. apply String.eqb_eq in E.
    now apply Hno in Hin.
Qed.

(** A budget for a client nobody registered is stored without reference. *)
Lemma add_budget_looks_up_client_by_name_witness :
  exists client_ref : option string,
    name_lookup [ana] "Maria Silva" client_ref
    /\ Budget.open_add_budget_dialog.save_budget
         "Maria Silva" "Logo" "" "" "" 0%N "03/11/2026"
         (Budget.Build_database [ana] [])
       = (Budget.Build_database
            [ana]
            [Budget.Budgets.Build_row "ART-1000" client_ref "03/11/2026"
               "Logo" "" "" ""],
          showinfo "Sucesso" "Orçamento adicionado com sucesso!")
    /\ ((forall c, In c [ana] -> Clients.name c <> "Maria Silva") ->
        client_ref = None).
Proof.
  apply (add_budget_looks_up_client_by_name
           "Maria Silva" "Logo" "" "" "" 0%N "03/11/2026"
           (Budget.Build_database [ana] [])).
  split; discriminate.
Defined.

(** With an empty name field [save_budget] of the edit dialog of
    [budget.py] stops at its own check: a warning, not a storage error. *)
Lemma edit_budget_empty_name_is_a_warning :
  Budget.open_edit_budget_dialog.save_budget
    "ART-1000" "" "maria@x.com" "Logo" "" "" "" (Budget.Build_database [] [])
  = (Budget.Build_database [] [],
     showwarning "Aviso" "O campo nome é obrigatório!").
Proof. reflexivity. Qed.







(** ** The email pattern *)

Lemma all_in_app (cls : ascii -> bool) (a b : string) :
  Re.all_in cls (a ++ b) = Re.all_in cls a && Re.all_in cls b.
Proof.
  induction a as [|c a IH]; simpl; [reflexivity|].
  now rewrite IH, andb_assoc.
Qed.

Lemma all_in_weaken (cls cls' : ascii -> bool) (s : string) :
  (forall c, cls c = true -> cls' c = true) ->
  Re.all_in cls s = true -> Re.all_in cls' s = true.
Proof.
  intros W. induction s as [|c s IH]; simpl; [reflexivity|].
  intros H. apply andb_true_iff in H as [Hc Hs].
  now rewrite (W c Hc), IH.
Qed.

(** [cls+] then [k]: a non-empty run of the class, after which [k] holds. *)
Lemma match_plus_spec (cls : ascii -> bool) (k : nat -> string -> bool)
      (pos : nat) (s : string) :
  Re.match_plus cls k pos s = true <->
  exists u v : string,
    s = u ++ v /\ u <> "" /\ Re.all_in cls u = true
    /\ k (pos + String.length u) v = true.
Proof.
  revert pos; induction s as [|c s IH]; intros pos; simpl.
  - split; [discriminate|].
    intros [u [v [E [Hu _]]]]. destruct u; [now elim Hu | discriminate E].
  - rewrite andb_true_iff, orb_true_iff, IH. split.
    + intros [Hc [[u [v [E [Hu [Hall Hk]]]]] | Hk]].
      * exists (String c u), v. simpl. rewrite Hc, Hall, E.
        repeat split; [discriminate|].
        now rewrite Nat.add_succ_r.
      * exists (String c ""), s. simpl. rewrite Hc.
        repeat split; [discriminate|].
        now rewrite Nat.add_1_r.
    + intros [u [v [E [Hu [Hall Hk]]]]].
      destruct u as [|c' u]; [now elim Hu|].
      simpl in E, Hall, Hk. injection E as <- ->.
      apply andb_true_iff in Hall as [Hc Hall]. split; [exact Hc|].
      destruct u as [|c'' u].
      * right. simpl. simpl in Hk. now rewrite Nat.add_1_r in Hk.
      * left. exists (String c'' u), v.
        repeat split; [discriminate | exact Hall |].
        now rewrite Nat.add_succ_r in Hk.
Qed.

Lemma match_lit_spec (c : ascii) (p : Re.pattern) (pos : nat) (s : string) :
  Re.match_here (Re.Lit c :: p) pos s = true <->
  exists v : string, s = String c v /\ Re.match_here p (S pos) v = true.
Proof.
  simpl. destruct s as [|a s].
  - split; [discriminate | intros [v [E _]]; discriminate E].
  - rewrite andb_true_iff, Ascii.eqb_eq. split.
    + intros [-> H]. now exists s.
    + intros [v [E H]]. injection E as -> ->. now split.
Qed.

Lemma at_eol_spec (s : string) :
  Re.at_eol s = true <-> s = "" \/ s = LF.
Proof.
  unfold Re.at_eol, LF. destruct s as [|c [|c' s]].
  - split; [now left | reflexivity].
  - rewrite Ascii.eqb_eq. split.
    + intros ->. now right.
    + intros [H|H]; [discriminate H | now injection H].
  - split; [discriminate | intros [H|H]; discriminate H].
Qed.

Lemma match_here_bol (p : Re.pattern) (s : string) :
  Re.match_here (Re.Bol :: p) 0 s = Re.match_here p 0 s.
Proof. reflexivity. Qed.

Lemma match_here_plus (cls : ascii -> bool) (p : Re.pattern) (pos : nat)
      (s : string) :
  Re.match_here (Re.Plus cls :: p) pos s
  = Re.match_plus cls (Re.match_here p) pos s.
Proof. reflexivity. Qed.

Lemma match_eol_spec (pos : nat) (s : string) :
  Re.match_here [Re.Eol] pos s = true <-> s = "" \/ s = LF.
Proof. simpl. rewrite andb_true_r. apply at_eol_spec. Qed.

(** What [validate_email] accepts, read off the matcher. *)
Lemma validate_email_decomposed (s : string) :
  DataValidator.validate_email s = true <->
  exists l d t e : string,
    s = l ++ String "@" (d ++ String "." (t ++ e))
    /\ (l <> "" /\ Re.all_in DataValidator.local_class l = true)
    /\ (d <> "" /\ Re.all_in DataValidator.domain_class d = true)
    /\ (t <> "" /\ Re.all_in DataValidator.tld_class t = true)
    /\ (e = "" \/ e = LF).
Proof.
  unfold DataValidator.validate_email, Re.match_, DataValidator.EMAIL_REGEX.
  rewrite match_here_bol, match_here_plus, match_plus_spec. split.
  - intros [l [v1 [E1 [Hl [Al K1]]]]].
    apply match_lit_spec in K1 as [v2 [E2 K2]].
    rewrite match_here_plus in K2.
    apply match_plus_spec in K2 as [d [v3 [E3 [Hd [Ad K3]]]]].
    apply match_lit_spec in K3 as [v4 [E4 K4]].
    rewrite match_here_plus in K4.
    apply match_plus_spec in K4 as [t [e [E5 [Ht [At K5]]]]].
    apply match_eol_spec in K5.
    exists l, d, t, e. subst. repeat split; assumption.
  - intros [l [d [t [e [E [[Hl Al] [[Hd Ad] [[Ht At] He]]]]]]]].
    exists l, (String "@" (d ++ String "." (t ++ e))).
    repeat split; try assumption.
    apply match_lit_spec. eexists. split; [reflexivity|].
    rewrite match_here_plus. apply match_plus_spec.
    exists d, (String "." (t ++ e)). repeat split; try assumption.
    apply match_lit_spec. eexists. split; [reflexivity|].
    rewrite match_here_plus. apply match_plus_spec.
    exists t, e. repeat split; try assumption.
    now apply match_eol_spec.
Qed.

Lemma email_shape_chars (s : string) :
  email_shape s -> Re.all_in email_char s = true.
Proof.
  intros [l [d [t [E [_ [Al [_ [Ad [_ At]]]]]]]]]. subst s.
  assert (Wl : forall c, DataValidator.local_class c = true -> email_char c = true).
  { intros c H. unfold email_char. now rewrite H. }
  assert (Wd : forall c, DataValidator.domain_class c = true -> email_char c = true).
  { intros c H. unfold email_char, DataValidator.local_class.
    unfold DataValidator.domain_class in H.
    apply orb_true_iff in H as [H|H]; rewrite H; now rewrite ?orb_true_r. }
  assert (Wt : forall c, DataValidator.tld_class c = true -> email_char c = true).
  { intros c H. unfold email_char, DataValidator.local_class.
    unfold DataValidator.tld_class in H.
    apply orb_true_iff in H as [H|H]; [apply orb_true_iff in H as [H|H]|];
      rewrite H; now rewrite ?orb_true_r. }
  rewrite !all_in_app.
  rewrite (all_in_weaken _ _ l Wl Al), (all_in_weaken _ _ d Wd Ad),
    (all_in_weaken _ _ t Wt At).
  reflexivity.
Qed.

(** The pattern accepts an address followed by a line feed, and the whole
    of that string is not an address of the shape. *)
Lemma validate_email_accepts_trailing_newline :
  DataValidator.validate_email ("a@b.c" ++ LF) = true
  /\ ~ email_shape ("a@b.c" ++ LF).
Proof.
  split; [reflexivity|].
  intros H. apply email_shape_chars in H. discriminate H.
Qed.

(** C8, amended.  [validate_email s] is true exactly when [s], or [s]
    without one line feed at its end, is wholly of the shape of the
    pattern: a non-empty run of [[A-Za-z0-9_.+-]], an [@], a non-empty
    run of [[A-Za-z0-9-]], a dot and a non-empty run of [[A-Za-z0-9-.]];
    it is false on every other string. *)
Theorem validate_email_spec (s : string) :
  (DataValidator.validate_email s = true <->
   email_shape s \/ exists s0 : string, s = s0 ++ LF /\ email_shape s0)
  /\ (DataValidator.validate_email s = false <->
      ~ (email_shape s \/ exists s0 : string, s = s0 ++ LF /\ email_shape s0)).
Proof.
  assert (T : DataValidator.validate_email s = true <->
              email_shape s \/ exists s0 : string, s = s0 ++ LF /\ email_shape s0).
  { rewrite validate_email_decomposed. split.
    - intros [l [d [t [e [E [[Hl Al] [[Hd Ad] [[Ht At] [He|He]]]]]]]]]; subst e.
      + left. exists l, d, t. rewrite append_nil_r in E.
        repeat split; assumption.
      + right. exists (l ++ "@" ++ d ++ "." ++ t). split.
        * rewrite E. simpl. rewrite !append_assoc. simpl.
          now rewrite !append_assoc.
        * exists l, d, t. repeat split; assumption.
    - intros [[l [d [t [E [Hl [Al [Hd [Ad [Ht At]]]]]]]]]
             | [s0 [E0 [l [d [t [E [Hl [Al [Hd [Ad [Ht At]]]]]]]]]]]].
      + exists l, d, t, "". rewrite append_nil_r.
        repeat split; try assumption. now left.
      + exists l, d, t, LF. repeat split; try assumption; [|now right].
        rewrite E0, E. simpl. rewrite !append_assoc. simpl.
        now rewrite !append_assoc. }
  split; [exact T|].
  rewrite <- T. destruct (DataValidator.validate_email s); split;
    intros H; try reflexivity; try discriminate; try (now elim H).
Qed.

(** * Further properties *)

(** ** [sanitize_input] *)

Lemma lstrip_spec (s : string) :
  (exists pre : string,
      s = pre ++ Py.lstrip s /\ Re.all_in Py.is_space pre = true)
  /\ (forall c rest, Py.lstrip s = String c rest -> Py.is_space c = false).
Proof.
  induction s as [|a s [[pre [E A]] F]]; simpl.
  - split; [now exists "" | discriminate].
  - destruct (Py.is_space a) eqn:Sa.
    + split; [|exact F].
      exists (String a pre). simpl. now rewrite Sa, A, <- E.
    + split; [now exists ""|].
      intros c rest H. now injection H as <- _.
Qed.

Lemma rstrip_cons (a : ascii) (s : string) :
  Py.rstrip (String a s) =
  match Py.rstrip s with
  | EmptyString =>
      if Py.is_space a then EmptyString else String a EmptyString
  | String b r => String a (String b r)
  end.
Proof. reflexivity. Qed.

Lemma rstrip_spec (s : string) :
  (exists post : string,
      s = Py.rstrip s ++ post /\ Re.all_in Py.is_space post = true)
  /\ (forall init c, Py.rstrip s = init ++ String c "" -> Py.is_space c = false)
  /\ (forall c rest, s = String c rest -> Py.is_space c = false ->
                     exists rest', Py.rstrip s = String c rest').
Proof.
  induction s as [|a s [[post [E A]] [L _]]].
  - split; [now exists ""|]. split.
    + intros init c H. destruct init; discriminate H.
    + discriminate.
  - rewrite rstrip_cons. destruct (Py.rstrip s) as [|b r] eqn:R.
    + simpl in E. destruct (Py.is_space a) eqn:Sa.
      * split; [|split].
        -- exists (String a post). simpl. now rewrite Sa, A, <- E.
        -- intros init c H. destruct init; discriminate H.
        -- intros c rest H Hc. injection H as <- _. congruence.
      * split; [|split].
        -- exists post. split; [simpl; now rewrite <- E | exact A].
        -- intros init c H. destruct init as [|x init].
           ++ now injection H as <-.
           ++ destruct init; discriminate H.
        -- intros c rest H _. injection H as <- _. now eexists.
    + split; [|split].
      * exists post. split; [simpl; simpl in E; now rewrite <- E | exact A].
      * intros init c H. destruct init as [|x init]; [discriminate H|].
        simpl in H. injection H as _ H. now apply (L init c).
      * intros c rest H _. injection H as <- _. now eexists.
Qed.

Lemma rstrip_idempotent (s : string) : Py.rstrip (Py.rstrip s) = Py.rstrip s.
Proof.
  induction s as [|a s IH]; [reflexivity|].
  rewrite rstrip_cons. destruct (Py.rstrip s) as [|b r] eqn:R.
  - destruct (Py.is_space a) eqn:Sa; [reflexivity|].
    rewrite rstrip_cons. simpl. now rewrite Sa.
  - rewrite rstrip_cons, IH. reflexivity.
Qed.

(** [sanitize_input] removes white space from both ends and nothing
    else: the data is a run of white space, the result, and a run of
    white space; the result neither starts nor ends with white space;
    sanitizing it again changes nothing. *)
Theorem sanitize_input_trims_both_ends (data : string) :
  let r := DataValidator.sanitize_input data in
  (exists pre post : string,
      data = pre ++ r ++ post
      /\ Re.all_in Py.is_space pre = true
      /\ Re.all_in Py.is_space post = true)
  /\ (forall c rest, r = String c rest -> Py.is_space c = false)
  /\ (forall init c, r = init ++ String c "" -> Py.is_space c = false)
  /\ DataValidator.sanitize_input r = r.
Proof.
  intros r. unfold r, DataValidator.sanitize_input, Py.strip.
  destruct (lstrip_spec data) as [[pre [E A]] F].
  destruct (rstrip_spec (Py.lstrip data)) as [[post [E' A']] [L K]].
  assert (First : forall c rest,
             Py.rstrip (Py.lstrip data) = String c rest -> Py.is_space c = false).
  { intros c rest H. destruct (Py.lstrip data) as [|a t] eqn:T.
    - discriminate H.
    - pose proof (F a t eq_refl) as Sa.
      destruct (K a t eq_refl Sa) as [rest' H']. rewrite H' in H.
      now injection H as <- _. }
  split; [|split; [|split]].
  - exists pre, post. repeat split; try assumption.
    rewrite E at 1. now rewrite E' at 1.
  - exact First.
  - exact L.
  - destruct (Py.rstrip (Py.lstrip data)) as [|c rest] eqn:R; [reflexivity|].
    simpl. rewrite (First c rest eq_refl).
    rewrite <- R. apply rstrip_idempotent.
Qed.

(** ** [validate_phone] *)

Lemma one_spec (cls : ascii -> bool) (k : string -> bool) (s : string) :
  RePhone.one cls k s = true <->
  exists (x : ascii) (rest : string),
    s = String x rest /\ cls x = true /\ k rest = true.
Proof.
  destruct s as [|a s]; simpl.
  - split; [discriminate | intros [x [rest [E _]]]; discriminate E].
  - rewrite andb_true_iff. split.
    + intros [Hc Hk]. now exists a, s.
    + intros [x [rest [E [Hc Hk]]]]. injection E as -> ->. now split.
Qed.

Lemma opt_spec (cls : ascii -> bool) (k : string -> bool) (s : string) :
  RePhone.opt cls k s = true <->
  exists o rest : string, s = o ++ rest /\ optional cls o /\ k rest = true.
Proof.
  unfold RePhone.opt. rewrite orb_true_iff, one_spec. split.
  - intros [[x [rest [E [Hc Hk]]]] | Hk].
    + exists (String x ""), rest. repeat split; try assumption.
      right. now exists x.
    + exists "", s. repeat split; try assumption. now left.
  - intros [o [rest [E [[->|[x [-> Hc]]] Hk]]]]; subst s.
    + now right.
    + left. now exists x, rest.
Qed.

Lemma two_digits_spec (k : string -> bool) (s : string) :
  RePhone.one Py.is_digit (RePhone.one Py.is_digit k) s = true <->
  exists d rest : string, s = d ++ rest /\ digits 2 d /\ k rest = true.
Proof.
  rewrite one_spec. split.
  - intros [x1 [r1 [E1 [H1 K1]]]].
    apply one_spec in K1 as [x2 [r2 [E2 [H2 K2]]]].
    exists (String x1 (String x2 "")), r2. subst. repeat split; try assumption.
    simpl. now rewrite H1, H2.
  - intros [d [rest [E [[L A] K]]]].
    destruct d as [|x1 [|x2 [|x3 d]]]; try discriminate L.
    simpl in A. apply andb_true_iff in A as [H1 A].
    apply andb_true_iff in A as [H2 _].
    exists x1, (String x2 rest). subst s. repeat split; try assumption.
    apply one_spec. now exists x2, rest.
Qed.

Lemma four_digits_spec (k : string -> bool) (s : string) :
  RePhone.four_digits k s = true <->
  exists d rest : string, s = d ++ rest /\ digits 4 d /\ k rest = true.
Proof.
  unfold RePhone.four_digits. rewrite two_digits_spec. split.
  - intros [d1 [r1 [E1 [[L1 A1] K1]]]].
    apply two_digits_spec in K1 as [d2 [r2 [E2 [[L2 A2] K2]]]].
    destruct d1 as [|x1 [|x2 [|x3 d1]]]; try discriminate L1.
    destruct d2 as [|y1 [|y2 [|y3 d2]]]; try discriminate L2.
    exists (String x1 (String x2 (String y1 (String y2 "")))), r2.
    subst. repeat split; try assumption.
    simpl in *. apply andb_true_iff in A1 as [H1 A1].
    apply andb_true_iff in A1 as [H2 _]. now rewrite H1, H2, A2.
  - intros [d [rest [E [[L A] K]]]].
    destruct d as [|x1 [|x2 [|x3 [|x4 [|x5 d]]]]]; try discriminate L.
    simpl in A. apply andb_true_iff in A as [H1 A].
    apply andb_true_iff in A as [H2 A].
    exists (String x1 (String x2 "")), (String x3 (String x4 rest)).
    subst s. repeat split; try assumption.
    + simpl. now rewrite H1, H2.
    + apply two_digits_spec. exists (String x3 (String x4 "")), rest.
      repeat split; assumption.
Qed.

(** What [validate_phone] accepts, read off the matcher. *)
Lemma validate_phone_shape_iff (s : string) :
  validate_phone s = true <-> phone_shape s.
Proof.
  unfold validate_phone, phone_shape. split.
  - intros H.
    apply opt_spec in H as [o [r1 [E1 [Ho H]]]].
    apply two_digits_spec in H as [a [r2 [E2 [Ha H]]]].
    apply opt_spec in H as [c [r3 [E3 [Hc H]]]].
    apply opt_spec in H as [p [r4 [E4 [Hp H]]]].
    apply four_digits_spec in H as [b [r5 [E5 [Hb H]]]].
    apply opt_spec in H as [b5 [r6 [E6 [Hb5 H]]]].
    apply opt_spec in H as [h [r7 [E7 [Hh H]]]].
    apply four_digits_spec in H as [z [e [E8 [Hz H]]]].
    apply at_eol_spec in H.
    exists o, a, c, p, b, b5, h, z, e. subst.
    split; [reflexivity|]. repeat (split; [assumption|]). assumption.
  - intros [o [a [c [p [b [b5 [h [z [e [E [Ho [Ha [Hc [Hp [Hb [Hb5 [Hh [Hz He]]]]]]]]]]]]]]]]]].
    subst s.
    apply opt_spec. exists o. eexists. repeat split; [assumption|].
    apply two_digits_spec. exists a. eexists. repeat split; try apply Ha.
    apply opt_spec. exists c. eexists. repeat split; [assumption|].
    apply opt_spec. exists p. eexists. repeat split; [assumption|].
    apply four_digits_spec. exists b. eexists. repeat split; try apply Hb.
    apply opt_spec. exists b5. eexists. repeat split; [assumption|].
    apply opt_spec. exists h. eexists. repeat split; [assumption|].
    apply four_digits_spec. exists z. exists e. repeat split; try apply Hz.
    now apply at_eol_spec.
Qed.

Lemma sub_non_digits_app (a b : string) :
  Py.sub_non_digits (a ++ b) = Py.sub_non_digits a ++ Py.sub_non_digits b.
Proof.
  induction a as [|c a IH]; simpl; [reflexivity|].
  destruct (Py.is_digit c); simpl; now rewrite IH.
Qed.

Lemma length_app_string (a b : string) :
  String.length (a ++ b) = String.length a + String.length b.
Proof. induction a as [|c a IH]; simpl; [reflexivity | now rewrite IH]. Qed.

Lemma space_or_hyphen_not_digit (x : ascii) :
  RePhone.space_or_hyphen x = true -> Py.is_digit x = false.
Proof.
  destruct x as [[] [] [] [] [] [] [] []]; intros H;
    first [reflexivity | discriminate H].
Qed.

Lemma optional_no_digits (cls : ascii -> bool) (o : string) :
  (forall x, cls x = true -> Py.is_digit x = false) ->
  optional cls o -> Py.sub_non_digits o = "".
Proof.
  intros W [->|[x [-> Hx]]]; [reflexivity|].
  simpl. now rewrite (W x Hx).
Qed.

Lemma eq_char_not_digit (c x : ascii) :
  Py.is_digit c = false -> Ascii.eqb x c = true -> Py.is_digit x = false.
Proof. intros H E. apply Ascii.eqb_eq in E. now subst. Qed.

(** [validate_phone] accepts exactly the strings of the shape of its
    pattern, and every string it accepts holds ten or eleven digits. *)
Theorem validate_phone_accepts_the_shape (s : string) :
  (validate_phone s = true <-> phone_shape s)
  /\ (validate_phone s = true ->
      Py.len (Py.sub_non_digits s) = 10 \/ Py.len (Py.sub_non_digits s) = 11).
Proof.
  split; [apply validate_phone_shape_iff|].
  intros H. apply validate_phone_shape_iff in H
    as [o [a [c [p [b [b5 [h [z [e [E [Ho [[La Aa] [Hc [Hp [[Lb Ab]
         [Hb5 [Hh [[Lz Az] He]]]]]]]]]]]]]]]]]].
  subst s. unfold Py.len in *.
  rewrite !sub_non_digits_app, !length_app_string.
  rewrite (optional_no_digits _ o (fun x => eq_char_not_digit "(" x eq_refl) Ho).
  rewrite (optional_no_digits _ c (fun x => eq_char_not_digit ")" x eq_refl) Hc).
  rewrite (optional_no_digits _ p space_or_hyphen_not_digit Hp).
  rewrite (optional_no_digits _ h (fun x => eq_char_not_digit "-" x eq_refl) Hh).
  rewrite (sub_non_digits_id a Aa), (sub_non_digits_id b Ab),
    (sub_non_digits_id z Az), La, Lb, Lz.
  assert (Ee : Py.sub_non_digits e = "") by (destruct He as [->| ->]; reflexivity).
  rewrite Ee.
  destruct Hb5 as [->|[x [-> Hx]]]; simpl; [now left|].
  rewrite Hx. now right.
Qed.

(** Ten or eleven digits and nothing else are a valid phone. *)
Theorem validate_phone_accepts_bare_digits (s : string) :
  digits 10 s \/ digits 11 s -> validate_phone s = true.
Proof.
  intros [[L A]|[L A]];
    destruct s as [|c1 [|c2 [|c3 [|c4 [|c5 [|c6 [|c7 [|c8 [|c9 [|c10 [|c11 [|c12 r]]]]]]]]]]]];
    try discriminate L;
    simpl in A;
    repeat match type of A with
           | _ && _ = true => let Hc := fresh "Hc" in
                              apply andb_true_iff in A as [Hc A]
           end;
    apply validate_phone_shape_iff.
  - exists "", (String c1 (String c2 "")), "", "",
      (String c3 (String c4 (String c5 (String c6 "")))), "", "",
      (String c7 (String c8 (String c9 (String c10 "")))), "".
    unfold digits, optional. cbn -[Py.is_digit].
    repeat match goal with
      | Hd : Py.is_digit ?c = true |- context [Py.is_digit ?c] => rewrite Hd
      end.
    cbn. tauto.
  - exists "", (String c1 (String c2 "")), "", "",
      (String c3 (String c4 (String c5 (String c6 "")))), (String c7 ""), "",
      (String c8 (String c9 (String c10 (String c11 "")))), "".
    unfold digits, optional. cbn -[Py.is_digit].
    repeat match goal with
      | Hd : Py.is_digit ?c = true |- context [Py.is_digit ?c] => rewrite Hd
      end.
    cbn. repeat split; try tauto. right. now exists c7.
Qed.

Lemma validate_phone_accepts_bare_digits_witness :
  validate_phone "11987654321" = true.
Proof.
  apply validate_phone_accepts_bare_digits. right. split; reflexivity.
Defined.

Lemma render_never_validates (d : string) :
  Py.all_digits d = true -> validate_phone (render_phone d) = false.
Proof.
  intros H.
  destruct d as [|c1 [|c2 [|c3 [|c4 [|c5 [|c6 [|c7 [|c8 [|c9 [|c10 [|c11 r]]]]]]]]]]];
    simpl in H;
    repeat match type of H with
           | _ && _ = true => let Hc := fresh "Hc" in
                              apply andb_true_iff in H as [Hc H]
           end;
    unfold render_phone, Py.slice, Py.len;
    cbn -[validate_phone Py.is_digit];
    unfold validate_phone, RePhone.four_digits, RePhone.opt, RePhone.one;
    cbn -[Py.is_digit];
    repeat match goal with
      | Hd : Py.is_digit ?c = true |- context [Py.is_digit ?c] => rewrite Hd
      end;
    change (Py.is_digit "("%char) with false;
    change (Py.is_digit ")"%char) with false;
    change (Py.is_digit " "%char) with false;
    change (Py.is_digit "-"%char) with false;
    repeat (progress (cbn -[Py.is_digit]; rewrite ?andb_false_r, ?orb_false_r));
    reflexivity.
Qed.

(** Whatever is typed, the text the phone formatter leaves in the entry
    is not a phone [validate_phone] accepts: the formatter separates the
    third digit from the rest, and the pattern wants four digits in a row
    there. *)
Theorem formatted_phone_never_validates (entry : string) :
  validate_phone (format_phone_entry entry) = false.
Proof.
  unfold format_phone_entry. apply render_never_validates.
  apply sub_non_digits_all_digits.
Qed.

(** ** Adding, listing, searching and deleting clients *)

Lemma email_passes_test (email : string) :
  email_passes email ->
  negb (String.eqb email "Digite o email")
  && negb (DataValidator.validate_email email) = false.
Proof.
  intros [-> | ->]; [reflexivity | now rewrite andb_false_r].
Qed.

Lemma contains_refl (s : string) : Py.contains s s = true.
Proof.
  apply contains_spec. exists "", "". simpl. now rewrite append_nil_r.
Qed.

Lemma contains_empty (s : string) : Py.contains "" s = true.
Proof. apply contains_spec. now exists "", s. Qed.

Lemma add_client_eq (name email phone observation_text : string) (rnd : N)
      (today : string) (db : Main.database) :
  name_given name -> email_passes email ->
  Main.add_client name email phone observation_text rnd today db
  = (Main.Build_database
       (Main.clients db ++ [new_client name email phone observation_text rnd today])%list
       (Main.budgets db),
     showinfo "Sucesso" "Cliente adicionado com sucesso!").
Proof.
  intros Hn He. unfold Main.add_client, Main.open_add_client_dialog.next_step.
  rewrite (name_given_test name Hn), (email_passes_test email He).
  reflexivity.
Qed.

(** Adding a client whose name is given and whose email is the
    placeholder or a valid address always succeeds, also when the
    identifier drawn is already in use: the new record comes last, after
    all the records there were, with the identifier made from the draw,
    the date of the day and the observation stripped; the budgets are as
    before; the reloaded listing ends with the new record. *)
Theorem add_client_appends_the_record
        (name email phone observation_text : string) (rnd : N) (today : string)
        (db : Main.database) :
  name_given name -> email_passes email ->
  let r := new_client name email phone observation_text rnd today in
  exists db' : Main.database,
    Main.add_client name email phone observation_text rnd today db
    = (db', showinfo "Sucesso" "Cliente adicionado com sucesso!")
    /\ Main.clients db' = (Main.clients db ++ [r])%list
    /\ Main.budgets db' = Main.budgets db
    /\ Main.load_data db' = ((Main.clients db ++ [r])%list, None).
Proof.
  intros Hn He r. eexists. split; [now apply add_client_eq|].
  cbn [Main.clients Main.budgets]. fold r.
  split; [reflexivity|]. split; [reflexivity|].
  apply load_data_lists_clients.
Qed.

Lemma add_client_appends_the_record_witness :
  exists db' : Main.database,
    Main.add_client "Maria Silva" "maria@x.com" "(11) 9 8765-4321" "" 0%N
      "03/11/2026" (Main.Build_database [ana] [])
    = (db', showinfo "Sucesso" "Cliente adicionado com sucesso!")
    /\ Main.clients db'
       = [ana; new_client "Maria Silva" "maria@x.com" "(11) 9 8765-4321" ""
                 0%N "03/11/2026"].
Proof.
  destruct (add_client_appends_the_record
              "Maria Silva" "maria@x.com" "(11) 9 8765-4321" "" 0%N
              "03/11/2026" (Main.Build_database [ana] []))
    as [db' [E [C _]]].
  - split; discriminate.
  - right. reflexivity.
  - exists db'. split; [exact E | exact C].
Defined.

Lemma delete_client_eq (item : Clients.row) (db : Main.database) :
  Main.delete_client_record (Some item) true db
  = (Main.Build_database
       (filter (fun r => negb (String.eqb (Clients.client_id r)
                                          (Clients.client_id item)))
               (Main.clients db))
       (Main.budgets db),
     Some (showinfo "Sucesso" "Cliente excluído com sucesso!")).
Proof. reflexivity. Qed.

(** A confirmed delete removes every client that carries the identifier
    of the selected one, and nothing else: the other clients stay, in
    their order, and no budget is touched; without a selection, or when the
    question is answered no, the store is left as it is. *)
Theorem delete_client_removes_all_with_identifier
        (item : Clients.row) (db : Main.database) :
  (exists db' : Main.database,
      Main.delete_client_record (Some item) true db
      = (db', Some (showinfo "Sucesso" "Cliente excluído com sucesso!"))
      /\ (forall r, In r (Main.clients db') <->
                    In r (Main.clients db)
                    /\ Clients.client_id r <> Clients.client_id item)
      /\ (exists keep, Main.clients db' = filter keep (Main.clients db))
      /\ Main.budgets db' = Main.budgets db)
  /\ Main.delete_client_record (Some item) false db = (db, None)
  /\ fst (Main.delete_client_record None true db) = db.
Proof.
  split; [|split; reflexivity].
  eexists. split; [apply delete_client_eq|]. cbn [Main.clients Main.budgets].
  split; [|split; [now eexists | reflexivity]].
  intros r. rewrite filter_In, negb_true_iff, String.eqb_neq. reflexivity.
Qed.

(** A client added under an identifier no stored client carries and then
    deleted leaves the store exactly as it was before the two steps. *)
Theorem add_then_delete_client_restores_store
        (name email phone observation_text : string) (rnd : N) (today : string)
        (db : Main.database) :
  name_given name -> email_passes email ->
  (forall r, In r (Main.clients db) ->
             Clients.client_id r <> generate_client_id rnd) ->
  let added :=
    fst (Main.add_client name email phone observation_text rnd today db) in
  Main.delete_client_record
    (Some (new_client name email phone observation_text rnd today)) true added
  = (db, Some (showinfo "Sucesso" "Cliente excluído com sucesso!")).
Proof.
  intros Hn He Hfresh added. unfold added.
  rewrite (add_client_eq _ _ _ _ _ _ _ Hn He). cbn [fst].
  rewrite delete_client_eq. cbn [Main.clients Main.budgets new_client Clients.client_id].
  rewrite filter_app. simpl. rewrite String.eqb_refl. simpl.
  rewrite app_nil_r, filter_none.
  - now destruct db.
  - intros r Hr. apply negb_true_iff, String.eqb_neq. now apply Hfresh.
Qed.

Lemma add_then_delete_client_restores_store_witness :
  Main.delete_client_record
    (Some (new_client "Maria Silva" "Digite o email" "" "" 0%N "03/11/2026"))
    true
    (fst (Main.add_client "Maria Silva" "Digite o email" "" "" 0%N
            "03/11/2026" (Main.Build_database [ana; bruno] [])))
  = (Main.Build_database [ana; bruno] [],
     Some (showinfo "Sucesso" "Cliente excluído com sucesso!")).
Proof.
  apply (add_then_delete_client_restores_store
           "Maria Silva" "Digite o email" "" "" 0%N "03/11/2026"
           (Main.Build_database [ana; bruno] [])).
  - split; discriminate.
  - left. reflexivity.
  - intros r [<-|[<-|[]]]; discriminate.
Defined.

Lemma row_matches_empty_term (row : ClientsTable.row) (id : string) :
  ClientsTable.client_id row = Some id -> Main.row_matches "" row = Some true.
Proof.
  intros H. unfold Main.row_matches. rewrite H. unfold Main.in_lower at 1.
  now rewrite contains_empty.
Qed.

Lemma filter_loop_empty_term (rows rest tree : list ClientsTable.row) :
  (forall row, In row rows -> ClientsTable.client_id row <> None) ->
  Main.filter_loop "" (rows ++ rest) tree
  = Main.filter_loop "" rest (tree ++ rows).
Proof.
  revert tree; induction rows as [|r rows IH]; intros tree H.
  - simpl. now rewrite app_nil_r.
  - simpl. destruct (ClientsTable.client_id r) as [id|] eqn:E.
    + rewrite (row_matches_empty_term r id E).
      rewrite IH by (intros x Hx; apply H; now right).
      now rewrite <- app_assoc.
    + now elim (H r (or_introl eq_refl)).
Qed.

(** With an empty search field the first test of the loop is true of
    every row that has an identifier and the other fields are not looked
    at: when every row has an identifier the filter lists the whole table
    in storage order, whatever else is [NULL]; at the first row whose
    identifier is [NULL] it stops with the error box, having listed the
    rows before it. *)
Theorem filter_data_empty_term (rows : list ClientsTable.row) :
  ((forall row, In row rows -> ClientsTable.client_id row <> None) ->
   Main.filter_data "" rows = (rows, None))
  /\ (forall (before : list ClientsTable.row) (row : ClientsTable.row)
             (after : list ClientsTable.row),
         rows = (before ++ row :: after)%list ->
         (forall r, In r before -> ClientsTable.client_id r <> None) ->
         ClientsTable.client_id row = None ->
         Main.filter_data "" rows = (before, Some filter_error)).
Proof.
  unfold Main.filter_data. change (Py.lower "") with "". split.
  - intros H. rewrite <- (app_nil_r rows) at 1.
    now rewrite (filter_loop_empty_term rows [] [] H).
  - intros before row after -> H Hid.
    rewrite (filter_loop_empty_term before (row :: after) [] H).
    cbn [Main.filter_loop app]. now rewrite (row_matches_null_id _ row Hid).
Qed.

Lemma filter_data_empty_term_witness :
  Main.filter_data "" [ClientsTable.written ana; migrated_ana;
                       ClientsTable.written bruno]
  = ([ClientsTable.written ana], Some filter_error).
Proof.
  apply (proj2 (filter_data_empty_term
                  [ClientsTable.written ana; migrated_ana;
                   ClientsTable.written bruno])
               [ClientsTable.written ana] migrated_ana
               [ClientsTable.written bruno]).
  - reflexivity.
  - intros r [<-|[]]. discriminate.
  - reflexivity.
Defined.

(** ** Editing a budget in [main.py] *)

Lemma main_edit_budget_eq
      (budget_id name email budget_type completion deadline service : string)
      (db : Main.database) :
  name_given name -> email_passes email ->
  Main.open_edit_budget_dialog.save_budget
    budget_id name email budget_type completion deadline service db
  = (Main.Build_database
       (Main.clients db)
       (map (edited_budget budget_id name email budget_type completion
                           deadline service)
            (Main.budgets db)),
     showinfo "Sucesso" "Orçamento atualizado com sucesso!").
Proof.
  intros Hn He. unfold Main.open_edit_budget_dialog.save_budget.
  rewrite (name_given_test name Hn), (email_passes_test email He).
  reflexivity.
Qed.

(** Against the schema of [main.py] the edit of a budget goes through:
    with a name given and an email that passes the check, every budget
    with the identifier gets the new name, email, type, completion,
    deadline and service and keeps its identifier and its date; budgets
    with another identifier and all clients are as before. *)
Theorem main_edit_budget_updates_fields
        (budget_id name email budget_type completion deadline service : string)
        (db : Main.database) :
  name_given name -> email_passes email ->
  exists db' : Main.database,
    Main.open_edit_budget_dialog.save_budget
      budget_id name email budget_type completion deadline service db
    = (db', showinfo "Sucesso" "Orçamento atualizado com sucesso!")
    /\ Main.clients db' = Main.clients db
    /\ List.length (Main.budgets db') = List.length (Main.budgets db)
    /\ forall (i : nat) (r : Main.Budgets.row),
        nth_error (Main.budgets db) i = Some r ->
        exists r' : Main.Budgets.row,
          nth_error (Main.budgets db') i = Some r'
          /\ Main.Budgets.budget_id r' = Main.Budgets.budget_id r
          /\ Main.Budgets.date r' = Main.Budgets.date r
          /\ (Main.Budgets.budget_id r = budget_id ->
              Main.Budgets.name r' = name /\ Main.Budgets.email r' = email
              /\ Main.Budgets.type r' = budget_type
              /\ Main.Budgets.completion r' = completion
              /\ Main.Budgets.deadline r' = deadline
              /\ Main.Budgets.service r' = service)
          /\ (Main.Budgets.budget_id r <> budget_id -> r' = r).
Proof.
  intros Hn He. eexists. split; [now apply main_edit_budget_eq|].
  cbn [Main.clients Main.budgets].
  split; [reflexivity|]. split; [apply length_map|].
  intros i r Hi.
  exists (edited_budget budget_id name email budget_type completion deadline
                        service r).
  split; [now rewrite nth_error_map, Hi|].
  unfold edited_budget.
  destruct (String.eqb_spec (Main.Budgets.budget_id r) budget_id) as [E|E];
    cbn; repeat split; try reflexivity; try tauto; intros; tauto.
Qed.

Lemma main_edit_budget_updates_fields_witness :
  exists db' : Main.database,
    Main.open_edit_budget_dialog.save_budget
      "ART-1000" "Ana" "ana@x.com" "Site" "" "" ""
      (Main.Build_database
         [ana]
         [Main.Budgets.Build_row "ART-1000" "Ana" "Digite o email"
            "03/11/2026" "Logo" "" "" ""])
    = (db', showinfo "Sucesso" "Orçamento atualizado com sucesso!")
    /\ Main.clients db' = [ana].
Proof.
  destruct (main_edit_budget_updates_fields
              "ART-1000" "Ana" "ana@x.com" "Site" "" "" ""
              (Main.Build_database
                 [ana]
                 [Main.Budgets.Build_row "ART-1000" "Ana" "Digite o email"
                    "03/11/2026" "Logo" "" "" ""]))
    as [db' [E [C _]]].
  - split; discriminate.
  - right. reflexivity.
  - exists db'. split; [exact E | exact C].
Defined.

(** ** Placeholders *)

(** The life of an entry with a non-empty placeholder: after it loses
    the focus its text is never empty; an entry that shows the
    placeholder is emptied when it gets the focus and shows the
    placeholder again when it loses it untouched; a text that is neither
    empty nor the placeholder survives both callbacks; a text equal to the
    placeholder is erased the next time the entry gets the focus. *)
Theorem placeholder_focus_cycle (placeholder : string) :
  placeholder <> "" ->
  (forall e, add_placeholder.text (add_placeholder.on_focus_out placeholder e) <> "")
  /\ (let shown := add_placeholder.add_placeholder
                     (add_placeholder.Build_entry "" add_placeholder.TEXT_COLOR)
                     placeholder in
      add_placeholder.text (add_placeholder.on_focus_in placeholder shown) = ""
      /\ add_placeholder.on_focus_out placeholder
           (add_placeholder.on_focus_in placeholder shown) = shown)
  /\ (forall e t,
         t <> "" -> t <> placeholder ->
         add_placeholder.text
           (add_placeholder.on_focus_in placeholder
              (add_placeholder.on_focus_out placeholder
                 (add_placeholder.typed t e))) = t)
  /\ (forall e,
         add_placeholder.text
           (add_placeholder.on_focus_in placeholder
              (add_placeholder.typed placeholder e)) = "").
Proof.
  intros Hp. split; [|split; [|split]].
  - intros e. unfold add_placeholder.on_focus_out.
    destruct (String.eqb_spec (add_placeholder.text e) "") as [E|E]; simpl.
    + rewrite E, append_nil_r. exact Hp.
    + exact E.
  - unfold add_placeholder.add_placeholder, add_placeholder.on_focus_in,
      add_placeholder.on_focus_out. simpl.
    rewrite append_nil_r, String.eqb_refl. simpl. now rewrite append_nil_r.
  - intros e t Ht Htp.
    unfold add_placeholder.on_focus_in, add_placeholder.on_focus_out,
      add_placeholder.typed. simpl.
    apply String.eqb_neq in Ht, Htp. rewrite Ht. simpl. now rewrite Htp.
  - intros e. unfold add_placeholder.on_focus_in, add_placeholder.typed. simpl.
    now rewrite String.eqb_refl.
Qed.

Lemma placeholder_focus_cycle_witness :
  add_placeholder.text
    (add_placeholder.on_focus_out "Digite o email"
       (add_placeholder.Build_entry "" add_placeholder.TEXT_COLOR)) <> "".
Proof.
  apply (proj1 (placeholder_focus_cycle "Digite o email" ltac:(discriminate))).
Defined.

(** Once the email entry of the add-client dialog has lost the focus,
    what it holds passes the email check exactly when the user left it
    empty, typed the placeholder, or typed an address the pattern accepts. *)
Theorem email_entry_after_focus_out (typed_text name phone : string)
        (e : add_placeholder.entry) :
  name_given name ->
  let email :=
    add_placeholder.text
      (add_placeholder.on_focus_out "Digite o email"
         (add_placeholder.typed typed_text e)) in
  Main.open_add_client_dialog.next_step name email phone
  = Continue (name, email, phone)
  <-> typed_text = "" \/ email_passes typed_text.
Proof.
  intros Hn email. unfold email, add_placeholder.on_focus_out,
    add_placeholder.typed. cbn [add_placeholder.text].
  unfold Main.open_add_client_dialog.next_step.
  rewrite (name_given_test name Hn).
  destruct (String.eqb_spec typed_text "") as [E|E]; cbn [add_placeholder.text].
  - subst typed_text. simpl. split; [now left | reflexivity].
  - destruct (negb (String.eqb typed_text "Digite o email")
              && negb (DataValidator.validate_email typed_text)) eqn:G.
    + split; [discriminate|]. intros [H|H]; [contradiction|].
      now rewrite (email_passes_test _ H) in G.
    + split; [|reflexivity]. intros _. right.
      apply andb_false_iff in G as [G|G]; apply negb_false_iff in G.
      * left. now apply String.eqb_eq.
      * now right.
Qed.

Lemma email_entry_after_focus_out_witness :
  Main.open_add_client_dialog.next_step
    "Maria Silva"
    (add_placeholder.text
       (add_placeholder.on_focus_out "Digite o email"
          (add_placeholder.typed ""
             (add_placeholder.Build_entry "" add_placeholder.TEXT_COLOR))))
    ""
  = Continue ("Maria Silva", "Digite o email", "").
Proof.
  apply (email_entry_after_focus_out
           "" "Maria Silva" ""
           (add_placeholder.Build_entry "" add_placeholder.TEXT_COLOR)).
  - split; discriminate.
  - now left.
Defined.

(** ** The client combobox of [budget.py] *)


(** ** Opening the edit-budget dialog *)

(** A row of the budget tree of [budget.py] has seven values, and the
    dialog reads the eighth: on every row, whatever Tk makes of each value
    when it hands it back, and on any item with at most seven values,
    opening the edit dialog raises [IndexError], so its [save_budget] is
    never reached.  An item with eight values or more, as the tree of
    [main.py] has them, opens the dialog, which keeps the first value as
    the identifier and shows the second, third, fifth, sixth, seventh and
    eighth as they were handed back. *)
Theorem budget_edit_dialog_index_error :
  (forall (convert : string -> string) (r : Budget.Budgets.row),
      EditBudgetDialog.open_edit_budget_dialog
        (Some (map convert (EditBudgetDialog.budget_tree_values r)))
      = EditBudgetDialog.IndexError)
  /\ (forall values : list string,
         List.length values <= 7 ->
         EditBudgetDialog.open_edit_budget_dialog (Some values)
         = EditBudgetDialog.IndexError)
  /\ (forall (v0 v1 v2 v3 v4 v5 v6 v7 : string) (more : list string),
         EditBudgetDialog.open_edit_budget_dialog
           (Some (v0 :: v1 :: v2 :: v3 :: v4 :: v5 :: v6 :: v7 :: more))
         = EditBudgetDialog.Dialog
             v0
             [("Nome:", v1); ("Email:", v2); ("Tipo:", v4);
              ("Previsão de Conclusão:", v5); ("Prazo:", v6);
              ("Serviço:", v7)]).
Proof.
  split; [reflexivity|]. split; [|reflexivity].
  intros values H.
  destruct values as [|v0 [|v1 [|v2 [|v3 [|v4 [|v5 [|v6 [|v7 values]]]]]]]];
    try reflexivity.
  simpl in H. lia.
Qed.

Lemma budget_edit_dialog_index_error_witness :
  EditBudgetDialog.open_edit_budget_dialog
    (Some ["ART-1000"; "None"; "03/11/2026"; "Logo"; ""; ""; ""])
  = EditBudgetDialog.IndexError.
Proof.
  apply (proj1 (proj2 budget_edit_dialog_index_error)). simpl. lia.
Defined.

(** ** [init_database] *)

Lemma same_name_refl (a : string) : Catalog.same_name a a = true.
Proof. apply String.eqb_refl. Qed.

Lemma same_name_trans (a b c : string) :
  Catalog.same_name a b = true -> Catalog.same_name a c = Catalog.same_name b c.
Proof.
  unfold Catalog.same_name. intros H. apply String.eqb_eq in H. now rewrite H.
Qed.

Lemma same_name_sym (a b : string) :
  Catalog.same_name a b = Catalog.same_name b a.
Proof. apply String.eqb_sym. Qed.

Lemma find_table_same (t t' : string) (cat : Catalog.catalog) :
  Catalog.same_name t t' = true ->
  Catalog.find_table t cat = Catalog.find_table t' cat.
Proof.
  intros H. unfold Catalog.find_table. induction cat as [|x cat IH]; simpl;
    [reflexivity|].
  rewrite (same_name_sym (fst x) t), (same_name_trans t t' (fst x) H),
    (same_name_sym t' (fst x)), IH.
  reflexivity.
Qed.

Lemma find_table_name (t : string) (cat : Catalog.catalog)
      (x : string * list string) :
  Catalog.find_table t cat = Some x -> Catalog.same_name (fst x) t = true.
Proof. intros H. now apply find_some in H as [_ H]. Qed.

Lemma find_table_app (t : string) (cat cat' : Catalog.catalog) :
  Catalog.find_table t (cat ++ cat')%list
  = match Catalog.find_table t cat with
    | Some x => Some x
    | None => Catalog.find_table t cat'
    end.
Proof.
  unfold Catalog.find_table. induction cat as [|x cat IH]; simpl;
    [reflexivity|].
  destruct (Catalog.same_name (fst x) t); [reflexivity | exact IH].
Qed.

(** A created table does not disturb the tables there are. *)
Lemma find_table_create (T : string) (cols : list string) (t : string)
      (cat : Catalog.catalog) (x : string * list string) :
  Catalog.find_table t cat = Some x ->
  Catalog.find_table t (Catalog.create_table_if_not_exists T cols cat) = Some x.
Proof.
  intros H. unfold Catalog.create_table_if_not_exists.
  destruct (Catalog.find_table T cat); [exact H|].
  now rewrite find_table_app, H.
Qed.

Lemma find_table_created (T : string) (cols : list string)
      (cat : Catalog.catalog) :
  exists x, Catalog.find_table T (Catalog.create_table_if_not_exists T cols cat)
            = Some x.
Proof.
  unfold Catalog.create_table_if_not_exists.
  destruct (Catalog.find_table T cat) as [x|] eqn:F.
  - now exists x.
  - exists (T, cols). rewrite find_table_app, F. unfold Catalog.find_table.
    simpl. now rewrite same_name_refl.
Qed.

Lemma create_existing (T : string) (cols : list string) (cat : Catalog.catalog)
      (x : string * list string) :
  Catalog.find_table T cat = Some x ->
  Catalog.create_table_if_not_exists T cols cat = cat.
Proof.
  intros H. unfold Catalog.create_table_if_not_exists. now rewrite H.
Qed.

Lemma find_table_add_column_same (T col t : string) (cat : Catalog.catalog) :
  Catalog.same_name t T = true ->
  Catalog.find_table t (Catalog.add_column T col cat)
  = match Catalog.find_table t cat with
    | Some x => Some (fst x, (snd x ++ [col])%list)
    | None => None
    end.
Proof.
  intros H. unfold Catalog.find_table. induction cat as [|x cat IH]; simpl;
    [reflexivity|].
  assert (E : Catalog.same_name (fst x) T = Catalog.same_name (fst x) t).
  { rewrite (same_name_sym (fst x) T), (same_name_sym (fst x) t).
    symmetry. now apply same_name_trans. }
  rewrite E. destruct (Catalog.same_name (fst x) t) eqn:S; simpl.
  - now rewrite S.
  - now rewrite S, IH.
Qed.

Lemma find_table_add_column_other (T col t : string) (cat : Catalog.catalog) :
  Catalog.same_name t T = false ->
  Catalog.find_table t (Catalog.add_column T col cat)
  = Catalog.find_table t cat.
Proof.
  intros H. unfold Catalog.find_table. induction cat as [|x cat IH]; simpl;
    [reflexivity|].
  destruct (Catalog.same_name (fst x) T) eqn:S; simpl.
  - assert (N : Catalog.same_name (fst x) t = false).
    { rewrite (same_name_trans (fst x) T t S). now rewrite same_name_sym. }
    now rewrite N.
  - destruct (Catalog.same_name (fst x) t); [reflexivity | exact IH].
Qed.

Lemma extends_refl (cat : Catalog.catalog) : extends cat cat.
Proof.
  intros t n cols H. exists []. rewrite app_nil_r.
  repeat split; [assumption | intros x []].
Qed.

Lemma extends_trans (a b c : Catalog.catalog) :
  extends a b -> extends b c -> extends a c.
Proof.
  intros Hab Hbc t n cols H.
  destruct (Hab t n cols H) as [e1 [F1 [N1 I1]]].
  destruct (Hbc t n _ F1) as [e2 [F2 [N2 I2]]].
  exists (e1 ++ e2)%list. rewrite app_assoc. split; [exact F2|]. split.
  - intros S. now rewrite (N1 S), (N2 S).
  - now apply incl_app.
Qed.

Lemma extends_create (T : string) (cols : list string) (cat : Catalog.catalog) :
  extends cat (Catalog.create_table_if_not_exists T cols cat).
Proof.
  intros t n cs H. exists []. rewrite app_nil_r.
  split; [now apply find_table_create|]. split; [reflexivity | intros x []].
Qed.

Lemma extends_alter (col : string) (cat cat' : Catalog.catalog) :
  In col ["client_id"; "date_added"] ->
  Catalog.alter_table_add_column "clients" col cat = Sql.Ok cat' ->
  extends cat cat'.
Proof.
  intros Hcol H. unfold Catalog.alter_table_add_column in H.
  destruct (Catalog.find_table "clients" cat) as [x|]; [|discriminate H].
  destruct (existsb (Catalog.same_name col) (snd x)); [discriminate H|].
  injection H as <-. intros t n cols F.
  destruct (Catalog.same_name t "clients") eqn:S.
  - exists [col]. rewrite (find_table_add_column_same _ _ _ _ S), F. simpl.
    split; [reflexivity|]. split; [discriminate|].
    intros y [<-|[]]. exact Hcol.
  - exists []. rewrite (find_table_add_column_other _ _ _ _ S), F, app_nil_r.
    split; [reflexivity|]. split; [reflexivity | intros y []].
Qed.

Lemma extends_init_clients (cat : Catalog.catalog) :
  extends cat (fst (Catalog.init_clients cat)).
Proof.
  unfold Catalog.init_clients.
  set (c0 := Catalog.create_table_if_not_exists "clients" Catalog.CLIENTS_COLUMNS cat).
  assert (E0 : extends cat c0) by apply extends_create.
  set (columns := Catalog.table_info "clients" c0).
  destruct (negb (Catalog.py_in "client_id" columns)).
  - destruct (Catalog.alter_table_add_column "clients" "client_id" c0)
      as [c1|e] eqn:A1; [|exact E0].
    assert (E1 : extends cat c1).
    { apply (extends_trans _ c0); [exact E0|].
      apply (extends_alter "client_id"); [simpl; tauto | exact A1]. }
    destruct (negb (Catalog.py_in "date_added" columns)).
    + destruct (Catalog.alter_table_add_column "clients" "date_added" c1)
        as [c2|e] eqn:A2; [|exact E1].
      apply (extends_trans _ c1); [exact E1|].
      apply (extends_alter "date_added"); [simpl; tauto | exact A2].
    + exact E1.
  - destruct (negb (Catalog.py_in "date_added" columns)).
    + destruct (Catalog.alter_table_add_column "clients" "date_added" c0)
        as [c2|e] eqn:A2; [|exact E0].
      apply (extends_trans _ c0); [exact E0|].
      apply (extends_alter "date_added"); [simpl; tauto | exact A2].
    + exact E0.
Qed.

Lemma extends_main_init (cat : Catalog.catalog) :
  extends cat (fst (Catalog.main_init_database cat)).
Proof.
  unfold Catalog.main_init_database.
  pose proof (extends_init_clients cat) as E.
  destruct (Catalog.init_clients cat) as [c [e|]]; [exact E|].
  simpl. apply (extends_trans _ c); [exact E | apply extends_create].
Qed.

Lemma extends_budget_init (cat : Catalog.catalog) :
  extends cat (fst (Catalog.budget_init_database cat)).
Proof.
  unfold Catalog.budget_init_database.
  pose proof (extends_init_clients cat) as E.
  destruct (Catalog.init_clients cat) as [c [e|]]; [exact E|].
  simpl. apply (extends_trans _ c); [exact E|].
  apply (extends_trans _ (Catalog.create_table_if_not_exists
                            "budgets" Catalog.BUDGET_BUDGETS_COLUMNS c));
    apply extends_create.
Qed.

(** [init_database] only adds: in either file, and also when it stops
    on an error, every table that existed is still there under its name
    with the columns it had, in their order; the [clients] table may have
    got a [client_id] and a [date_added] column after them, and no other
    table has got any column. *)
Theorem init_database_only_adds (cat : Catalog.catalog)
        (t n : string) (cols : list string) :
  Catalog.find_table t cat = Some (n, cols) ->
  (exists extra : list string,
      Catalog.find_table t (fst (Catalog.main_init_database cat))
      = Some (n, (cols ++ extra)%list)
      /\ (Catalog.same_name t "clients" = false -> extra = [])
      /\ incl extra ["client_id"; "date_added"])
  /\ (exists extra : list string,
         Catalog.find_table t (fst (Catalog.budget_init_database cat))
         = Some (n, (cols ++ extra)%list)
         /\ (Catalog.same_name t "clients" = false -> extra = [])
         /\ incl extra ["client_id"; "date_added"]).
Proof.
  intros H. split.
  - exact (extends_main_init cat t n cols H).
  - exact (extends_budget_init cat t n cols H).
Qed.

(** A table of an older version, with a name and an email only, gets
    the two columns and nothing more. *)
Lemma init_database_only_adds_witness :
  exists extra : list string,
    Catalog.find_table "clients"
      (fst (Catalog.main_init_database [("clients", ["id"; "name"; "email"])]))
    = Some ("clients", (["id"; "name"; "email"] ++ extra)%list)
    /\ (Catalog.same_name "clients" "clients" = false -> extra = [])
    /\ incl extra ["client_id"; "date_added"].
Proof.
  apply (proj1 (init_database_only_adds
                  [("clients", ["id"; "name"; "email"])]
                  "clients" "clients" ["id"; "name"; "email"] eq_refl)).
Defined.

Lemma py_in_app (y : string) (l l' : list string) :
  Catalog.py_in y (l ++ l')%list = Catalog.py_in y l || Catalog.py_in y l'.
Proof. apply existsb_app. Qed.

(** One guarded [ALTER TABLE clients ADD COLUMN col] that did not raise. *)
Lemma migrate_step (col : string) (columns : list string)
      (c c' : Catalog.catalog) (x : string * list string) :
  Catalog.find_table "clients" c = Some x ->
  (Catalog.py_in col columns = true -> Catalog.py_in col (snd x) = true) ->
  (if negb (Catalog.py_in col columns)
   then Catalog.alter_table_add_column "clients" col c
   else Sql.Ok c) = Sql.Ok c' ->
  exists x' : string * list string,
    Catalog.find_table "clients" c' = Some x'
    /\ Catalog.py_in col (snd x') = true
    /\ (forall y, Catalog.py_in y (snd x) = true ->
                  Catalog.py_in y (snd x') = true).
Proof.
  intros F M H. destruct (Catalog.py_in col columns) eqn:P; simpl in H.
  - injection H as <-. exists x. split; [exact F|]. split; [now apply M | tauto].
  - unfold Catalog.alter_table_add_column in H. rewrite F in H.
    destruct (existsb (Catalog.same_name col) (snd x)); [discriminate H|].
    injection H as <-. exists (fst x, (snd x ++ [col])%list).
    rewrite (find_table_add_column_same _ _ _ _ (same_name_refl "clients")), F.
    split; [reflexivity|]. cbn [snd]. split.
    + rewrite py_in_app. simpl. rewrite String.eqb_refl. now rewrite orb_true_r.
    + intros y Hy. now rewrite py_in_app, Hy.
Qed.

Lemma init_clients_done (cat c : Catalog.catalog) :
  Catalog.init_clients cat = (c, None) ->
  exists x : string * list string,
    Catalog.find_table "clients" c = Some x
    /\ Catalog.py_in "client_id" (snd x) = true
    /\ Catalog.py_in "date_added" (snd x) = true.
Proof.
  unfold Catalog.init_clients.
  set (c0 := Catalog.create_table_if_not_exists "clients" Catalog.CLIENTS_COLUMNS cat).
  destruct (find_table_created "clients" Catalog.CLIENTS_COLUMNS cat) as [x0 F0].
  fold c0 in F0. unfold Catalog.table_info. rewrite F0.
  destruct (if negb (Catalog.py_in "client_id" (snd x0))
            then Catalog.alter_table_add_column "clients" "client_id" c0
            else Sql.Ok c0) as [c1|e] eqn:S1; [|discriminate].
  destruct (migrate_step _ _ _ _ _ F0 (fun H => H) S1) as [x1 [F1 [P1 M1]]].
  destruct (if negb (Catalog.py_in "date_added" (snd x0))
            then Catalog.alter_table_add_column "clients" "date_added" c1
            else Sql.Ok c1) as [c2|e] eqn:S2; [|discriminate].
  destruct (migrate_step _ _ _ _ _ F1 (M1 "date_added") S2) as [x2 [F2 [P2 M2]]].
  intros H. injection H as <-. exists x2. split; [exact F2|].
  split; [now apply M2 | exact P2].
Qed.

Lemma init_clients_again (c : Catalog.catalog) (x : string * list string) :
  Catalog.find_table "clients" c = Some x ->
  Catalog.py_in "client_id" (snd x) = true ->
  Catalog.py_in "date_added" (snd x) = true ->
  Catalog.init_clients c = (c, None).
Proof.
  intros F P1 P2. unfold Catalog.init_clients.
  rewrite (create_existing _ _ _ _ F). unfold Catalog.table_info.
  rewrite F, P1, P2. reflexivity.
Qed.

(** Running [init_database] a second time changes nothing: in either
    file, the catalog a run without error leaves is left as it is, again
    without error, by the next run.  On a new file the first run creates
    the tables with the columns the statements of the dialogs name, after
    the [id] key. *)
Theorem init_database_idempotent (cat cat' : Catalog.catalog) :
  (Catalog.main_init_database cat = (cat', None) ->
   Catalog.main_init_database cat' = (cat', None))
  /\ (Catalog.budget_init_database cat = (cat', None) ->
      Catalog.budget_init_database cat' = (cat', None))
  /\ Catalog.main_init_database []
     = ([("clients", "id" :: map Sql.col_name Clients.columns);
         ("budgets", "id" :: map Sql.col_name Main.Budgets.columns)], None)
  /\ Catalog.budget_init_database []
     = ([("clients", "id" :: map Sql.col_name Clients.columns);
         ("budgets", "id" :: map Sql.col_name Budget.Budgets.columns);
         ("users", Catalog.USERS_COLUMNS)], None).
Proof.
  split; [|split; [|split; reflexivity]].
  - unfold Catalog.main_init_database.
    destruct (Catalog.init_clients cat) as [c [e|]] eqn:I; [discriminate|].
    intros H. injection H as <-.
    destruct (init_clients_done _ _ I) as [x [F [P1 P2]]].
    set (c' := Catalog.create_table_if_not_exists
                 "budgets" Catalog.MAIN_BUDGETS_COLUMNS c).
    assert (F' : Catalog.find_table "clients" c' = Some x)
      by now apply find_table_create.
    rewrite (init_clients_again _ _ F' P1 P2).
    destruct (find_table_created "budgets" Catalog.MAIN_BUDGETS_COLUMNS c)
      as [b Fb].
    fold c' in Fb. now rewrite (create_existing _ _ _ _ Fb).
  - unfold Catalog.budget_init_database.
    destruct (Catalog.init_clients cat) as [c [e|]] eqn:I; [discriminate|].
    intros H. injection H as <-.
    destruct (init_clients_done _ _ I) as [x [F [P1 P2]]].
    set (c1 := Catalog.create_table_if_not_exists
                 "budgets" Catalog.BUDGET_BUDGETS_COLUMNS c).
    set (c2 := Catalog.create_table_if_not_exists
                 "users" Catalog.USERS_COLUMNS c1).
    assert (F' : Catalog.find_table "clients" c2 = Some x)
      by now apply find_table_create, find_table_create.
    rewrite (init_clients_again _ _ F' P1 P2).
    destruct (find_table_created "budgets" Catalog.BUDGET_BUDGETS_COLUMNS c)
      as [b Fb].
    fold c1 in Fb.
    assert (Fb' : Catalog.find_table "budgets" c2 = Some b)
      by now apply find_table_create.
    rewrite (create_existing _ _ _ _ Fb').
    destruct (find_table_created "users" Catalog.USERS_COLUMNS c1) as [u Fu].
    fold c2 in Fu. now rewrite (create_existing _ _ _ _ Fu).
Qed.

Lemma init_database_idempotent_witness :
  Catalog.main_init_database (fst (Catalog.main_init_database []))
  = (fst (Catalog.main_init_database []), None).
Proof.
  apply (proj1 (init_database_idempotent [] (fst (Catalog.main_init_database [])))).
  reflexivity.
Defined.

(** The [budgets] table belongs to the file that ran first: when a
    [budgets] table exists, [init_database] of either file leaves its
    columns as they are.  So on a database [budget.py] set up, the table
    still has no [name] and no [email] column after [main.py] has run its
    [init_database], and on a database [main.py] set up it still has no
    [client_id] after [budget.py] has run its own. *)
Theorem budgets_schema_is_first_come :
  (forall (cat : Catalog.catalog) (x : string * list string),
      Catalog.find_table "budgets" cat = Some x ->
      Catalog.table_info "budgets" (fst (Catalog.main_init_database cat)) = snd x
      /\ Catalog.table_info "budgets" (fst (Catalog.budget_init_database cat))
         = snd x)
  /\ (let cat := fst (Catalog.main_init_database
                        (fst (Catalog.budget_init_database []))) in
      Catalog.table_info "budgets" cat = Catalog.BUDGET_BUDGETS_COLUMNS
      /\ Catalog.py_in "name" (Catalog.table_info "budgets" cat) = false
      /\ Catalog.py_in "email" (Catalog.table_info "budgets" cat) = false)
  /\ (let cat := fst (Catalog.budget_init_database
                        (fst (Catalog.main_init_database []))) in
      Catalog.table_info "budgets" cat = Catalog.MAIN_BUDGETS_COLUMNS
      /\ Catalog.py_in "client_id" (Catalog.table_info "budgets" cat) = false).
Proof.
  split; [|split; repeat split; reflexivity].
  intros cat [n cols] F. unfold Catalog.table_info. split.
  - destruct (extends_main_init cat _ _ _ F) as [extra [F' [N _]]].
    rewrite F', (N eq_refl). simpl. apply app_nil_r.
  - destruct (extends_budget_init cat _ _ _ F) as [extra [F' [N _]]].
    rewrite F', (N eq_refl). simpl. apply app_nil_r.
Qed.

Lemma budgets_schema_is_first_come_witness :
  Catalog.table_info "budgets"
    (fst (Catalog.main_init_database [("budgets", Catalog.BUDGET_BUDGETS_COLUMNS)]))
  = Catalog.BUDGET_BUDGETS_COLUMNS.
Proof.
  apply (proj1 (proj1 budgets_schema_is_first_come
                      [("budgets", Catalog.BUDGET_BUDGETS_COLUMNS)]
                      ("budgets", Catalog.BUDGET_BUDGETS_COLUMNS) eq_refl)).
Defined.

Lemma no_clash (col : string) (cols : list string) :
  (forall c, In c cols -> Py.lower c = c) ->
  Py.lower col = col ->
  Catalog.py_in col cols = false ->
  existsb (Catalog.same_name col) cols = false.
Proof.
  intros L Lc P. induction cols as [|c cols IH]; [reflexivity|].
  simpl in P |- *. apply orb_false_iff in P as [Pc P].
  rewrite IH; [|intros y Hy; apply L; now right | exact P].
  rewrite orb_false_r. unfold Catalog.same_name.
  rewrite Lc, (L c (or_introl eq_refl)). exact Pc.
Qed.

Lemma existsb_same_name_app (col : string) (cols : list string) (c : string) :
  Catalog.same_name col c = false ->
  existsb (Catalog.same_name col) (cols ++ [c])%list
  = existsb (Catalog.same_name col) cols.
Proof.
  intros H. rewrite existsb_app. simpl. now rewrite H, !orb_false_r.
Qed.

Lemma init_clients_lower_case (cat : Catalog.catalog) :
  Catalog.lower_case_names cat -> snd (Catalog.init_clients cat) = None.
Proof.
  intros L. unfold Catalog.init_clients.
  set (c0 := Catalog.create_table_if_not_exists "clients" Catalog.CLIENTS_COLUMNS cat).
  destruct (find_table_created "clients" Catalog.CLIENTS_COLUMNS cat) as [x0 F0].
  fold c0 in F0. unfold Catalog.table_info. rewrite F0.
  assert (L0 : forall c, In c (snd x0) -> Py.lower c = c).
  { apply find_some in F0 as [I0 _]. unfold c0 in I0.
    unfold Catalog.create_table_if_not_exists in I0.
    destruct (Catalog.find_table "clients" cat).
    - now apply (L x0 I0).
    - apply in_app_or in I0 as [I0|[<-|[]]]; [now apply (L x0 I0)|].
      intros c Hc. simpl in Hc.
      repeat (destruct Hc as [<-|Hc]; [reflexivity|]). destruct Hc. }
  unfold Catalog.alter_table_add_column. rewrite F0.
  destruct (Catalog.py_in "client_id" (snd x0)) eqn:P1; cbn [negb].
  - destruct (Catalog.py_in "date_added" (snd x0)) eqn:P2; cbn [negb];
      [reflexivity|].
    rewrite F0, (no_clash "date_added" (snd x0) L0 eq_refl P2). reflexivity.
  - rewrite (no_clash "client_id" (snd x0) L0 eq_refl P1).
    destruct (Catalog.py_in "date_added" (snd x0)) eqn:P2; cbn [negb];
      [reflexivity|].
    rewrite (find_table_add_column_same _ _ _ _ (same_name_refl "clients")), F0.
    cbn [snd]. rewrite (existsb_same_name_app "date_added" (snd x0) "client_id" eq_refl).
    rewrite (no_clash "date_added" (snd x0) L0 eq_refl P2). reflexivity.
Qed.

(** When [init_database] fails.  On a catalog whose table and column
    names are all in lower case, as every name the two files write is,
    it raises no error, in either file.  On a [clients] table that has a
    column named [client_id] in another letter case, the membership test
    of Python misses the column, the [ALTER TABLE] is refused, and
    [DatabaseApp.init_database] shows the error and leaves the catalog as
    it was. *)
Theorem init_database_error_behaviour (cat : Catalog.catalog) :
  (Catalog.lower_case_names cat ->
   snd (Catalog.main_init_database cat) = None
   /\ snd (Catalog.budget_init_database cat) = None
   /\ snd (Catalog.init_database cat) = None)
  /\ (forall (x : string * list string) (col : string),
         Catalog.find_table "clients" cat = Some x ->
         In col (snd x) ->
         Catalog.same_name "client_id" col = true ->
         Catalog.py_in "client_id" (snd x) = false ->
         Catalog.init_database cat
         = (cat, Some (showerror "Database Error"
                         "Failed to initialize database: duplicate column name: client_id"))).
Proof.
  split.
  - intros L. pose proof (init_clients_lower_case cat L) as I.
    unfold Catalog.init_database, Catalog.main_init_database,
      Catalog.budget_init_database.
    destruct (Catalog.init_clients cat) as [c [e|]]; [discriminate I|].
    repeat split.
  - intros x col F Hin S P.
    unfold Catalog.init_database, Catalog.main_init_database,
      Catalog.init_clients.
    rewrite (create_existing _ _ _ _ F). unfold Catalog.table_info.
    rewrite F, P. cbn [negb]. unfold Catalog.alter_table_add_column.
    rewrite F.
    assert (E : existsb (Catalog.same_name "client_id") (snd x) = true).
    { apply existsb_exists. now exists col. }
    rewrite E. reflexivity.
Qed.

Lemma init_database_error_behaviour_witness :
  Catalog.init_database [("clients", ["id"; "Client_ID"; "name"])]
  = ([("clients", ["id"; "Client_ID"; "name"])],
     Some (showerror "Database Error"
             "Failed to initialize database: duplicate column name: client_id")).
Proof.
  apply (proj2 (init_database_error_behaviour
                  [("clients", ["id"; "Client_ID"; "name"])])
               ("clients", ["id"; "Client_ID"; "name"]) "Client_ID").
  - reflexivity.
  - simpl. tauto.
  - reflexivity.
  - reflexivity.
Defined.

(** ** More on identifiers, addresses and the phone formatter *)

Lemma count_char_app (c : ascii) (a b : string) :
  count_char c (a ++ b) = count_char c a + count_char c b.
Proof.
  induction a as [|x a IH]; simpl; [reflexivity|]. rewrite IH. lia.
Qed.

Lemma count_char_outside (cls : ascii -> bool) (c : ascii) (s : string) :
  cls c = false -> Re.all_in cls s = true -> count_char c s = 0.
Proof.
  intros Hc. induction s as [|x s IH]; simpl; [reflexivity|].
  intros H. apply andb_true_iff in H as [Hx Hs].
  destruct (Ascii.eqb_spec x c) as [->|_]; [congruence|]. now apply IH.
Qed.

Lemma length_nonempty (s : string) : s <> "" -> 1 <= String.length s.
Proof. destruct s; [now intros H; elim H | simpl; lia]. Qed.

(** An address [validate_email] accepts holds exactly one [@], at least
    one dot after it, and at least five characters. *)
Theorem valid_email_has_one_at (s : string) :
  DataValidator.validate_email s = true ->
  count_char "@" s = 1
  /\ 5 <= Py.len s
  /\ exists before after : string,
      s = before ++ "@" ++ after
      /\ count_char "@" before = 0
      /\ 1 <= count_char "." after.
Proof.
  intros H. apply validate_email_decomposed in H
    as [l [d [t [e [E [[Hl Al] [[Hd Ad] [[Ht At] He]]]]]]]].
  assert (Cl : count_char "@" l = 0)
    by exact (count_char_outside _ "@" l eq_refl Al).
  assert (Cd : count_char "@" d = 0)
    by exact (count_char_outside _ "@" d eq_refl Ad).
  assert (Ct : count_char "@" t = 0)
    by exact (count_char_outside _ "@" t eq_refl At).
  assert (Ce : count_char "@" e = 0) by (destruct He as [->| ->]; reflexivity).
  subst s. split; [|split].
  - rewrite count_char_app. simpl. rewrite count_char_app. simpl.
    rewrite count_char_app. lia.
  - unfold Py.len. rewrite length_app_string. simpl.
    rewrite length_app_string. simpl. rewrite length_app_string.
    pose proof (length_nonempty l Hl). pose proof (length_nonempty d Hd).
    pose proof (length_nonempty t Ht). lia.
  - exists l, (d ++ String "." (t ++ e)). split; [reflexivity|].
    split; [exact Cl|]. rewrite count_char_app. simpl. lia.
Qed.

Lemma valid_email_has_one_at_witness :
  count_char "@" "maria@x.com" = 1 /\ 5 <= Py.len "maria@x.com"
  /\ exists before after : string,
      "maria@x.com" = before ++ "@" ++ after
      /\ count_char "@" before = 0
      /\ 1 <= count_char "." after.
Proof.
  apply valid_email_has_one_at. reflexivity.
Defined.

(** The text the phone formatter leaves is at most 16 characters long,
    is exactly 16 characters long from eleven digits on, and is empty
    exactly when the input holds no digit. *)
Theorem format_phone_entry_length (entry : string) :
  Py.len (format_phone_entry entry) <= 16
  /\ (11 <= Py.len (Py.sub_non_digits entry) ->
      Py.len (format_phone_entry entry) = 16)
  /\ (format_phone_entry entry = "" <-> Py.sub_non_digits entry = "").
Proof.
  unfold format_phone_entry.
  destruct (Py.sub_non_digits entry)
    as [|c1 [|c2 [|c3 [|c4 [|c5 [|c6 [|c7 [|c8 [|c9 [|c10 [|c11 r]]]]]]]]]]];
    unfold render_phone, Py.slice, Py.len; simpl;
    try (destruct r; simpl);
    (split; [lia | split; [intros; lia
                          | split; intros H; first [reflexivity | discriminate H]]]).
Qed.
